(** * dcf-calc: a discounted-cash-flow valuation, embedded in Rocq

    The development follows [dcf-calc.py]:
    - [Py]: the fragment of Python's dynamic semantics the script relies on
      (JSON documents, subscripting, [in], truthiness, [float()], [int()],
      true division, exceptions and [try]/[except]);
    - [get_alpha_vantage_data], [calculate_dcf] and [main], written in a
      small error-and-trace monad;
    - the properties of the valuation and of its error handling.

    Python floats are IEEE 754 binary64 numbers: they are Rocq's primitive
    floats, and every arithmetic operation of the script is the primitive
    operation of the same name. *)

From Stdlib Require Import ZArith QArith Qround List Ascii String Bool Lia.
From Stdlib Require Import Floats.
From stdpp Require Import base option gmap strings.

Set Warnings "-inexact-float".
#[local] Set Warnings "-register-all".
Close Scope Q_scope.
Local Open Scope string_scope.
Local Open Scope Z_scope.
Local Open Scope list_scope.

(** ** Python values, exceptions and effects *)

Module Py.

(** What [response.json()] can return: the image of a JSON document. *)
Inductive pyval : Type :=
| PNone
| PBool (b : bool)
| PInt (n : Z)
| PFloat (x : float)
| PStr (s : string)
| PList (l : list pyval)
| PDict (d : gmap string pyval).

(** The three ways a [requests] call fails; all are subclasses of
    [requests.exceptions.RequestException]. *)
Inductive request_error := ConnectionFailure | HTTPError | JSONDecodeError.

Inductive exn :=
| KeyError
| IndexError
| ValueError
| TypeError
| ZeroDivisionError
| OverflowError
| RequestException (k : request_error).

Inductive result (A : Type) : Type :=
| Ok (a : A)
| Raise (e : exn).
Arguments Ok {A} a.
Arguments Raise {A} e.

Definition rbind {A B} (r : result A) (k : A -> result B) : result B :=
  match r with
  | Ok a => k a
  | Raise e => Raise e
  end.

Inductive verdict := Undervalued | Overvalued | FairlyValued.

(** The lines the script prints. Formatted numbers are kept as numbers. *)
Inductive line :=
| ApiError (symbol function : string) (message : pyval)
| HttpRequestFailed (k : request_error)
| FailedToRetrieve
| ErrorParsing (e : exn)
| ApiKeyNotFound
| SymbolNotFound
| Calculating (symbol : string)
| IntrinsicValueLine (v : float)
| CurrentPriceLine (p : float)
| Conclusion (c : verdict)
| CouldNotRetrievePrice.

(** Observable effects of a run, in order. *)
Inductive event :=
| HttpGet (url : string)
| Print (l : line).

(** A computation yields a value or an uncaught exception, and the
    trace of the effects it performed on the way. *)
Definition M (A : Type) : Type := result A * list event.

Definition ret {A} (a : A) : M A := (Ok a, []).
Definition raise {A} (e : exn) : M A := (Raise e, []).
Definition emit (ev : event) : M unit := (Ok tt, [ev]).
Definition print (l : line) : M unit := emit (Print l).
Definition lift {A} (r : result A) : M A := (r, []).

Definition bind {A B} (m : M A) (k : A -> M B) : M B :=
  match m with
  | (Ok a, t) => let (r, t') := k a in (r, t ++ t')
  | (Raise e, t) => (Raise e, t)
  end.

(** [try: body except <classes>: handler]. *)
Definition try_except {A} (body : M A) (catches : exn -> bool)
    (handler : exn -> M A) : M A :=
  match body with
  | (Raise e, t) =>
      if catches e then let (r, t') := handler e in (r, t ++ t')
      else (Raise e, t)
  | done => done
  end.

Definition outcome {A} (m : M A) : result A := fst m.
Definition trace {A} (m : M A) : list event := snd m.

(** *** Truthiness, [in] and subscripting *)

Definition truthy (v : pyval) : bool :=
  match v with
  | PNone => false
  | PBool b => b
  | PInt n => negb (n =? 0)
  | PFloat x => negb (x =? 0)%float
  | PStr s => match s with EmptyString => false | _ => true end
  | PList l => match l with [] => false | _ => true end
  | PDict d => negb (bool_decide (d = ∅))
  end.

Fixpoint is_substring (needle hay : string) : bool :=
  String.prefix needle hay ||
  match hay with
  | EmptyString => false
  | String _ rest => is_substring needle rest
  end.

(** [k in c] for a string [k]. *)
Definition py_contains (k : string) (c : pyval) : result bool :=
  match c with
  | PDict d => Ok (bool_decide (is_Some (d !! k)))
  | PList l =>
      Ok (existsb (fun v => match v with
                            | PStr s => String.eqb s k
                            | _ => false
                            end) l)
  | PStr s => Ok (is_substring k s)
  | _ => Raise TypeError
  end.

(** [l[i]] on a sequence, negative indices counting from the end. *)
Definition seq_getitem {A} (l : list A) (i : Z) : result A :=
  let n := Z.of_nat (length l) in
  let j := if i <? 0 then i + n else i in
  if (j <? 0) || (n <=? j) then Raise IndexError
  else match nth_error l (Z.to_nat j) with
       | Some a => Ok a
       | None => Raise IndexError
       end.

(** [c[k]] for a string [k]: only a dict accepts a string key. *)
Definition py_getitem_str (c : pyval) (k : string) : result pyval :=
  match c with
  | PDict d =>
      match d !! k with
      | Some v => Ok v
      | None => Raise KeyError
      end
  | _ => Raise TypeError
  end.

(** [c[i]] for an integer [i]. The keys of a decoded JSON object are
    strings, so an integer key is never found. A string is indexed by
    byte here and by character in Python; the script subscripts the
    result with a string, which raises [TypeError] either way. *)
Definition py_getitem_int (c : pyval) (i : Z) : result pyval :=
  match c with
  | PList l => seq_getitem l i
  | PStr s =>
      rbind (seq_getitem (list_ascii_of_string s) i)
        (fun ch => Ok (PStr (String ch EmptyString)))
  | PDict _ => Raise KeyError
  | _ => Raise TypeError
  end.

(** *** Numbers *)

(** The float nearest to an integer (ties to even, infinite beyond the
    largest float). *)
Definition nearest_float (n : Z) : float :=
  SF2Prim (binary_normalize prec emax n 0 false).

(** [int] to [float]: correctly rounded, [OverflowError] out of range. *)
Definition int_to_float (n : Z) : result float :=
  let x := nearest_float n in
  if is_infinity x then Raise OverflowError else Ok x.

(** [a / b] on floats. *)
Definition float_truediv (a b : float) : result float :=
  if (b =? 0)%float then Raise ZeroDivisionError else Ok (a / b)%float.

(** [a / n] for a float [a] and an int [n]: [n] is converted first. *)
Definition float_truediv_int (a : float) (n : Z) : result float :=
  rbind (int_to_float n) (float_truediv a).

(** Truncation of a float towards zero, as [int(x)] does. *)
Definition float_trunc (x : float) : result Z :=
  match Prim2SF x with
  | S754_nan => Raise ValueError
  | S754_infinity _ => Raise OverflowError
  | S754_zero _ => Ok 0
  | S754_finite s m e =>
      let a := if 0 <=? e then Z.shiftl (Zpos m) e
               else Z.shiftr (Zpos m) (- e) in
      Ok (if s then - a else a)
  end.

(** The parts of the interpreter and of the C library the script calls
    and this repository does not define. *)
Class Runtime := {
  (** [float(s)] on a [str]; [None] stands for [ValueError]. *)
  str_to_float : string -> option float;
  (** [int(s)] on a [str]; [None] stands for [ValueError]. *)
  str_to_int : string -> option Z;
  (** The C library's [pow], which [math.pow] delegates to. *)
  libm_pow : float -> float -> float
}.

Section Builtins.
Context `{Runtime}.

(** [float(v)]. *)
Definition py_float (v : pyval) : result float :=
  match v with
  | PStr s =>
      match str_to_float s with
      | Some x => Ok x
      | None => Raise ValueError
      end
  | PFloat x => Ok x
  | PInt n => int_to_float n
  | PBool b => Ok (if b then 1 else 0)%float
  | PNone | PList _ | PDict _ => Raise TypeError
  end.

(** [int(v)]. *)
Definition py_int (v : pyval) : result Z :=
  match v with
  | PStr s =>
      match str_to_int s with
      | Some n => Ok n
      | None => Raise ValueError
      end
  | PInt n => Ok n
  | PBool b => Ok (if b then 1 else 0)
  | PFloat x => float_trunc x
  | PNone | PList _ | PDict _ => Raise TypeError
  end.

(** [math.pow(x, n)] for a float [x] and an int [n]. With finite
    arguments CPython calls the C [pow] and turns a NaN result into
    [ValueError] and an infinite one into [OverflowError]
    ([ValueError] at a zero base). With an infinite or NaN argument it
    returns the IEEE special value without raising; that value is taken
    to be the one the C [pow] gives. The script only ever passes finite
    arguments. *)
Definition math_pow (x : float) (n : Z) : result float :=
  rbind (int_to_float n) (fun y =>
    let r := libm_pow x y in
    if is_finite x && is_finite y then
      if is_nan r then Raise ValueError
      else if is_infinity r then
        Raise (if (x =? 0)%float then ValueError else OverflowError)
      else Ok r
    else Ok r).
End Builtins.

End Py.
Export Py.

Declare Scope py_scope.
Delimit Scope py_scope with py.
Notation "x <- m ;; k" := (bind m (fun x => k))
  (at level 63, m at next level, right associativity) : py_scope.
Notation "m ;;; k" := (bind m (fun _ => k))
  (at level 63, right associativity) : py_scope.
Notation "x <~ r ;; k" := (rbind r (fun x => k))
  (at level 63, r at next level, right associativity) : py_scope.
Local Open Scope py_scope.

(** ** The network *)

(** What the script sees of an HTTP response: the status code and the
    body, decoded when it is JSON. *)
Record response := { status_code : Z; json_body : option pyval }.

(** The provider, as far as one run can tell: the answer to a GET at each
    URL, or [None] when the transport fails (no connection, timeout...). *)
Definition network := string -> option response.

Definition query_url (symbol function api_key : string) : string :=
  "https://www.alphavantage.co/query?function=" +:+ function +:+
  "&symbol=" +:+ symbol +:+ "&apikey=" +:+ api_key.

(** [requests.get(url)]. *)
Definition requests_get (net : network) (url : string) : M response :=
  emit (HttpGet url);;;
  match net url with
  | Some r => ret r
  | None => raise (RequestException ConnectionFailure)
  end.

(** [response.raise_for_status()]: client and server error codes raise. *)
Definition raise_for_status (r : response) : M unit :=
  if (400 <=? status_code r) && (status_code r <? 600)
  then raise (RequestException HTTPError)
  else ret tt.

(** [response.json()]; [requests] (2.27 and later) reports a body that is
    not JSON with its own [JSONDecodeError], a [RequestException]. *)
Definition response_json (r : response) : M pyval :=
  match json_body r with
  | Some v => ret v
  | None => raise (RequestException JSONDecodeError)
  end.

Definition is_request_exception (e : exn) : bool :=
  match e with
  | RequestException _ => true
  | _ => false
  end.

Definition request_error_of (e : exn) : request_error :=
  match e with
  | RequestException k => k
  | _ => ConnectionFailure
  end.

(** ** The script *)

Definition revenue_growth_rate : float := 0.05.
Definition forecast_years : Z := 5.
Definition discount_rate : float := 0.09.
Definition terminal_growth_rate : float := 0.025.

(** [range(lo, hi)] and [enumerate(l, start)]. *)
Definition py_range (lo hi : Z) : list Z :=
  map (fun k => lo + Z.of_nat k) (seq 0 (Z.to_nat (hi - lo))).

Fixpoint enumerate {A} (l : list A) (start : Z) : list (Z * A) :=
  match l with
  | [] => []
  | a :: rest => (start, a) :: enumerate rest (start + 1)
  end.

(** The values the [try] block of [calculate_dcf] binds (lines 41-45). *)
Record snapshot := {
  fcf_data : pyval;
  revenue_data : pyval;
  shares_outstanding : Z;
  total_debt : float;
  cash_and_equivalents : float
}.

(** The four documents [calculate_dcf] fetches (lines 30-33). *)
Record statements := {
  income_statement : pyval;
  cash_flow_statement : pyval;
  balance_sheet : pyval;
  company_overview : pyval
}.

(** The intermediate values of the valuation (lines 55-83). *)
Record locals := {
  fcf_margin : float;
  projected_fcf : list float;
  present_value_fcf : float;
  terminal_fcf : float;
  terminal_value : float;
  present_value_tv : float;
  enterprise_value : float;
  equity_value : float
}.

Definition parse_handled (e : exn) : bool :=
  match e with
  | KeyError | IndexError | ValueError => true
  | _ => false
  end.

(** Lines 115-120. [a > b] on floats is [b < a]. *)
Definition compare_to_price (intrinsic_value current_price : float) : verdict :=
  if (current_price <? intrinsic_value)%float then Undervalued
  else if (intrinsic_value <? current_price)%float then Overvalued
  else FairlyValued.

Section Script.
Context `{Runtime}.

(** Lines 6-22. *)
Definition get_alpha_vantage_data (net : network)
    (symbol function api_key : string) : M pyval :=
  let url := query_url symbol function api_key in
  try_except
    (response <- requests_get net url;;
     raise_for_status response;;;
     data <- response_json response;;
     has_error <- lift (py_contains "Error Message" data);;
     if has_error : bool then
       message <- lift (py_getitem_str data "Error Message");;
       print (ApiError symbol function message);;;
       ret PNone
     else ret data)
    is_request_exception
    (fun e => print (HttpRequestFailed (request_error_of e));;; ret PNone).

(** [doc['annualReports'][0][field]]. *)
Definition latest_annual (doc : pyval) (field : string) : result pyval :=
  reports <~ py_getitem_str doc "annualReports";;
  latest <~ py_getitem_int reports 0;;
  py_getitem_str latest field.

(** The body of the [try] block, lines 41-45. *)
Definition parse_reports (docs : statements) : result snapshot :=
  fcf_data <~ latest_annual (cash_flow_statement docs) "freeCashFlow";;
  revenue_data <~ latest_annual (income_statement docs) "totalRevenue";;
  shares_str <~ py_getitem_str (company_overview docs) "SharesOutstanding";;
  shares_outstanding <~ py_int shares_str;;
  liabilities_str <~ latest_annual (balance_sheet docs) "totalLiabilities";;
  total_debt <~ py_float liabilities_str;;
  cash_str <~
    latest_annual (balance_sheet docs) "cashAndCashEquivalents";;
  cash_and_equivalents <~ py_float cash_str;;
  Ok {| fcf_data := fcf_data; revenue_data := revenue_data;
        shares_outstanding := shares_outstanding;
        total_debt := total_debt;
        cash_and_equivalents := cash_and_equivalents |}.

(** The projection loop, lines 61-67; [years] is what is left of
    [range(1, forecast_years + 1)]. *)
Fixpoint project_fcf (fcf_data : pyval) (years : list Z)
    (projected_fcf : list float) : result (list float) :=
  match years with
  | [] => Ok projected_fcf
  | i :: rest =>
      next_fcf <~
        (if i =? 1 then
           x <~ py_float fcf_data;;
           Ok (x * (1 + revenue_growth_rate))%float
         else
           last <~ seq_getitem projected_fcf (-1);;
           Ok (last * (1 + revenue_growth_rate))%float);;
      project_fcf fcf_data rest (projected_fcf ++ [next_fcf])
  end.

(** The discounting loop, lines 70-72, over what is left of
    [enumerate(projected_fcf, 1)]. *)
Fixpoint discount_fcf (years : list (Z * float))
    (present_value_fcf : float) : result float :=
  match years with
  | [] => Ok present_value_fcf
  | (i, fcf) :: rest =>
      factor <~ math_pow (1 + discount_rate)%float i;;
      term <~ float_truediv fcf factor;;
      discount_fcf rest (present_value_fcf + term)%float
  end.

(** Lines 54-83. The accumulator of line 70 starts as the int [0];
    adding a float to it converts it to [0.0]. *)
Definition dcf_locals (s : snapshot) : result locals :=
  fcf <~ py_float (fcf_data s);;
  revenue <~ py_float (revenue_data s);;
  fcf_margin <~ float_truediv fcf revenue;;
  projected_fcf <~
    project_fcf (fcf_data s) (py_range 1 (forecast_years + 1)) [];;
  present_value_fcf <~ discount_fcf (enumerate projected_fcf 1) 0%float;;
  last <~ seq_getitem projected_fcf (-1);;
  let terminal_fcf := (last * (1 + terminal_growth_rate))%float in
  terminal_value <~
    float_truediv terminal_fcf (discount_rate - terminal_growth_rate)%float;;
  factor <~ math_pow (1 + discount_rate)%float forecast_years;;
  present_value_tv <~ float_truediv terminal_value factor;;
  let enterprise_value := (present_value_fcf + present_value_tv)%float in
  let equity_value :=
    (enterprise_value + cash_and_equivalents s - total_debt s)%float in
  Ok {| fcf_margin := fcf_margin; projected_fcf := projected_fcf;
        present_value_fcf := present_value_fcf;
        terminal_fcf := terminal_fcf; terminal_value := terminal_value;
        present_value_tv := present_value_tv;
        enterprise_value := enterprise_value;
        equity_value := equity_value |}.

(** Lines 54-86: the value [calculate_dcf] returns. *)
Definition intrinsic_value_per_share (s : snapshot) : result float :=
  l <~ dcf_locals s;;
  float_truediv_int (equity_value l) (shares_outstanding s).

(** Lines 30-33. *)
Definition fetch_statements (net : network) (symbol api_key : string)
    : M statements :=
  income_statement <-
    get_alpha_vantage_data net symbol "INCOME_STATEMENT" api_key;;
  cash_flow_statement <-
    get_alpha_vantage_data net symbol "CASH_FLOW" api_key;;
  balance_sheet <-
    get_alpha_vantage_data net symbol "BALANCE_SHEET" api_key;;
  company_overview <-
    get_alpha_vantage_data net symbol "OVERVIEW" api_key;;
  ret {| income_statement := income_statement;
         cash_flow_statement := cash_flow_statement;
         balance_sheet := balance_sheet;
         company_overview := company_overview |}.

(** [all([income_statement, cash_flow_statement, balance_sheet,
    company_overview])], line 35. *)
Definition all_retrieved (docs : statements) : bool :=
  forallb truthy [income_statement docs; cash_flow_statement docs;
                  balance_sheet docs; company_overview docs].

(** Lines 39-86, once the four documents are there. *)
Definition value_statements (docs : statements) : M (option float) :=
  parsed <-
    try_except
      (s <- lift (parse_reports docs);; ret (Some s))
      parse_handled
      (fun e => print (ErrorParsing e);;; ret None);;
  match parsed with
  | None => ret None
  | Some s =>
      v <- lift (intrinsic_value_per_share s);;
      ret (Some v)
  end.

(** Lines 24-86. *)
Definition calculate_dcf (net : network) (symbol api_key : string)
    : M (option float) :=
  docs <- fetch_statements net symbol api_key;;
  if negb (all_retrieved docs) then
    print FailedToRetrieve;;;
    ret None
  else value_statements docs.

(** Lines 107-122, the body of [if intrinsic_value:]. *)
Definition report (net : network) (stock_symbol api_key : string)
    (intrinsic_value : float) : M unit :=
  current_price_data <-
    get_alpha_vantage_data net stock_symbol "GLOBAL_QUOTE" api_key;;
  has_quote <-
    (if truthy current_price_data
     then lift (py_contains "Global Quote" current_price_data)
     else ret false);;
  if has_quote : bool then
    quote <- lift (py_getitem_str current_price_data "Global Quote");;
    price <- lift (py_getitem_str quote "05. price");;
    current_price <- lift (py_float price);;
    print (IntrinsicValueLine intrinsic_value);;;
    print (CurrentPriceLine current_price);;;
    print (Conclusion (compare_to_price intrinsic_value current_price))
  else print CouldNotRetrievePrice.

(** Lines 88-122; [getenv] is [os.getenv]. An unset variable and an
    empty one are both falsy, and so are a valuation that returned
    [None] and one that returned zero (line 106). *)
Definition main (getenv : string -> option string) (net : network)
    : M unit :=
  match getenv "ALPHA_VANTAGE_API_KEY" with
  | None | Some EmptyString => print ApiKeyNotFound
  | Some api_key =>
      match getenv "STOCK_SYMBOL" with
      | None | Some EmptyString => print SymbolNotFound
      | Some stock_symbol =>
          print (Calculating stock_symbol);;;
          intrinsic_value <- calculate_dcf net stock_symbol api_key;;
          match intrinsic_value with
          | None => ret tt
          | Some v =>
              if truthy (PFloat v)
              then report net stock_symbol api_key v
              else ret tt
          end
      end
  end.
End Script.

(** ** What the properties are stated with *)

(** *** The discount factors *)

(** [x ^ n] rounded once to the nearest float, for a finite nonzero [x]
    and [0 <= n]: the value an exact [pow] returns. *)
Definition pow_rounded (x : float) (n : Z) : float :=
  match Prim2SF x with
  | S754_finite s m e =>
      SF2Prim (binary_normalize prec emax
                 ((if s then Zneg m else Zpos m) ^ n) (e * n) false)
  | _ => nan
  end.

Definition within_one_ulp (r c : float) : Prop :=
  r = next_down c \/ r = c \/ r = next_up c.

Section Pow.
Context `{Runtime}.

(** The factor [pow(1 + discount_rate, i)] of year [i]. *)
Definition discount_factor (i : Z) : float :=
  libm_pow (1 + discount_rate)%float (nearest_float i).

(** The C library's [pow] gives usable discount factors: finite and
    not zero. *)
Definition pow_regular : Prop :=
  forall i, In i (py_range 1 (forecast_years + 1)) ->
    is_finite (discount_factor i) = true /\
    (discount_factor i =? 0)%float = false.

(** The C library's [pow] is accurate to one unit in the last place at
    the discount factors (glibc documents less than one ulp). *)
Definition pow_faithful : Prop :=
  forall i, In i (py_range 1 (forecast_years + 1)) ->
    within_one_ulp (discount_factor i)
      (pow_rounded (1 + discount_rate)%float i).
End Pow.

(** *** The valuation formula, in the words of the specification *)

Section Formula.
Context `{Runtime}.

(** Projected cash flow of year [i]: year 1 is the latest cash flow
    times [1 + growth], each later year the year before times
    [1 + growth]. *)
Fixpoint projected (fcf : float) (i : nat) : float :=
  match i with
  | O => fcf
  | S k => (projected fcf k * (1 + revenue_growth_rate))%float
  end.

Definition discounted (fcf : float) (i : nat) : float :=
  (projected fcf i / discount_factor (Z.of_nat i))%float.

(** Sum of the discounted cash flows of years 1 to 5, in this order. *)
Definition pv_forecast (fcf : float) : float :=
  fold_left (fun acc i => (acc + discounted fcf i)%float)
    [1; 2; 3; 4; 5]%nat 0%float.

Definition terminal (fcf : float) : float :=
  (projected fcf 5 * (1 + terminal_growth_rate)
   / (discount_rate - terminal_growth_rate))%float.

Definition pv_terminal (fcf : float) : float :=
  (terminal fcf / discount_factor 5)%float.

Definition dcf_formula (fcf cash liabilities shares : float) : float :=
  ((pv_forecast fcf + pv_terminal fcf + cash - liabilities) / shares)%float.
End Formula.

(** *** Agreement to four significant figures *)

(** The exact value of a finite float. *)
Definition float_to_Q (x : float) : option Q :=
  match Prim2SF x with
  | S754_zero _ => Some 0%Q
  | S754_finite s m e =>
      Some (inject_Z (if s then Zneg m else Zpos m) * Qpower 2 e)%Q
  | _ => None
  end.

(** Scale a positive rational into [1000, 10000), counting the decimal
    shifts. *)
Fixpoint scale4 (fuel : nat) (q : Q) (e : Z) : Q * Z :=
  match fuel with
  | O => (q, e)
  | S fuel' =>
      if Qle_bool 10000 q then scale4 fuel' (q / 10)%Q (e + 1)
      else if Qle_bool 1000 q then (q, e)
      else scale4 fuel' (q * 10)%Q (e - 1)
  end.

(** A positive rational rounded to four significant figures:
    [(m, e)] stands for [m * 10 ^ e], with [1000 <= m < 10000]. *)
Definition round4 (q : Q) : Z * Z :=
  let (s, e) := scale4 400 q 0 in
  let m := Qfloor (s + (1 # 2))%Q in
  if m =? 10000 then (1000, e + 1) else (m, e).

(** [x] and the positive decimal [t] are the same number once both are
    rounded to four significant figures. *)
Definition agree4 (x : float) (t : Q) : bool :=
  match float_to_Q x with
  | Some q =>
      Qle_bool 0 q && negb (Qle_bool q 0) &&
      let (m, e) := round4 q in
      let (m', e') := round4 t in
      (m =? m') && (e =? e')
  | None => false
  end.

(** *** A reference runtime *)

(** A runtime that agrees with CPython on what the examples use: decimal
    ASCII integers with an optional minus sign, the string [nan], and
    integer powers. *)
Module Reference.

Definition digit_of (c : ascii) : option Z :=
  let n := Z.of_N (N_of_ascii c) in
  if (48 <=? n) && (n <=? 57) then Some (n - 48) else None.

Fixpoint digits_value (s : string) (acc : Z) : option Z :=
  match s with
  | EmptyString => Some acc
  | String c rest =>
      match digit_of c with
      | Some d => digits_value rest (10 * acc + d)
      | None => None
      end
  end.

(** Sign and magnitude of a decimal integer literal. *)
Definition sign_magnitude (s : string) : option (bool * Z) :=
  match s with
  | EmptyString => None
  | String "-" EmptyString => None
  | String "-" rest => option_map (pair true) (digits_value rest 0)
  | _ => option_map (pair false) (digits_value s 0)
  end.

Definition decimal_int (s : string) : option Z :=
  option_map (fun '(neg, n) => if neg : bool then - n else n)
    (sign_magnitude s).

Definition decimal_float (s : string) : option float :=
  if String.eqb s "nan" then Some nan
  else option_map
         (fun '(neg, n) =>
            if neg : bool then (- nearest_float n)%float
            else nearest_float n)
         (sign_magnitude s).

(** [x ^ y] correctly rounded when [y] is a non-negative integer. *)
Definition integer_pow (x y : float) : float :=
  match float_trunc y with
  | Ok n =>
      if (0 <=? n) && (nearest_float n =? y)%float then pow_rounded x n
      else nan
  | Raise _ => nan
  end.

Definition runtime : Runtime :=
  {| str_to_float := decimal_float;
     str_to_int := decimal_int;
     libm_pow := integer_pow |}.

End Reference.

(** *** Example documents *)

Module Example.

Definition symbol := "IBM".
Definition api_key := "demo".

Definition ok (v : pyval) : option response :=
  Some {| status_code := 200; json_body := Some v |}.

(** A document with one annual report. *)
Definition annual (fields : gmap string pyval) : pyval :=
  PDict {[ "annualReports" := PList [PDict fields] ]}.

Definition income (revenue : pyval) : pyval :=
  annual {[ "totalRevenue" := revenue ]}.

Definition cash_flow (fcf : pyval) : pyval :=
  annual {[ "freeCashFlow" := fcf ]}.

Definition balance (liabilities cash : pyval) : pyval :=
  annual (<[ "totalLiabilities" := liabilities ]>
            {[ "cashAndCashEquivalents" := cash ]}).

Definition overview (shares : pyval) : pyval :=
  PDict {[ "SharesOutstanding" := shares ]}.

Definition quote (price : pyval) : pyval :=
  PDict {[ "Global Quote" := PDict {[ "05. price" := price ]} ]}.

(** A provider that answers the five queries of one run. *)
Definition provider (inc cf bal ov quo : option response) : network :=
  fun url =>
    if String.eqb url (query_url symbol "INCOME_STATEMENT" api_key) then inc
    else if String.eqb url (query_url symbol "CASH_FLOW" api_key) then cf
    else if String.eqb url (query_url symbol "BALANCE_SHEET" api_key) then bal
    else if String.eqb url (query_url symbol "OVERVIEW" api_key) then ov
    else if String.eqb url (query_url symbol "GLOBAL_QUOTE" api_key) then quo
    else None.

(** The provider's answers for a company with the given figures, all
    sent as strings, and the given answer to the quote query. *)
Definition company (fcf revenue cash liabilities shares : string)
    (quo : option response) : network :=
  provider (ok (income (PStr revenue))) (ok (cash_flow (PStr fcf)))
    (ok (balance (PStr liabilities) (PStr cash)))
    (ok (overview (PStr shares))) quo.

Definition getenv (name : string) : option string :=
  if String.eqb name "ALPHA_VANTAGE_API_KEY" then Some api_key
  else if String.eqb name "STOCK_SYMBOL" then Some symbol
  else None.

(** The four documents [company] serves, and what parses out of them
    when every figure is a decimal integer. *)
Definition documents (fcf revenue cash liabilities shares : string)
    : statements :=
  {| income_statement := income (PStr revenue);
     cash_flow_statement := cash_flow (PStr fcf);
     balance_sheet := balance (PStr liabilities) (PStr cash);
     company_overview := overview (PStr shares) |}.

(** The worked example of the specification. *)
Definition worked : network := company "100" "1000" "50" "30" "100" None.

Definition worked_snapshot : snapshot :=
  {| fcf_data := PStr "100"; revenue_data := PStr "1000";
     shares_outstanding := 100; total_debt := 30%float;
     cash_and_equivalents := 50%float |}.

End Example.

(** *** How a fetch ends *)

Section FetchCases.
Variables (net : network) (url : string).

Definition transport_failed : Prop := net url = None.

Definition status_failed : Prop :=
  exists r, net url = Some r /\ 400 <= status_code r < 600.

(** The status is not an error and the body decodes to [v]. *)
Definition decoded (v : pyval) : Prop :=
  exists r, net url = Some r /\ ~ 400 <= status_code r < 600 /\
            json_body r = Some v.

(** The status is not an error and the body is not JSON. *)
Definition undecodable : Prop :=
  exists r, net url = Some r /\ ~ 400 <= status_code r < 600 /\
            json_body r = None.

(** The decoded payload is an object with an ["Error Message"] field. *)
Definition error_reported : Prop :=
  exists d m, decoded (PDict d) /\ d !! "Error Message" = Some m.
End FetchCases.

(** A fetch "returns null and logs a message". *)
Definition returns_null (run : M pyval) : Prop :=
  outcome run = Ok PNone /\ exists l, In (Print l) (trace run).

(** The fetcher's contract as the specification words it: null exactly on
    a transport error, a failure status or an error field, the decoded
    response otherwise. *)
Definition fetcher_contract (net : network)
    (symbol function api_key : string) : Prop :=
  let url := query_url symbol function api_key in
  let run := get_alpha_vantage_data net symbol function api_key in
  (returns_null run <->
   transport_failed net url \/ status_failed net url \/
   error_reported net url) /\
  (~ returns_null run -> exists v, decoded net url v /\ outcome run = Ok v).

(** The four statement queries of [calculate_dcf]. *)
Definition statement_functions : list string :=
  ["INCOME_STATEMENT"; "CASH_FLOW"; "BALANCE_SHEET"; "OVERVIEW"].

(** Lines 30-37 alone: fetch, report the failure, return [None]. *)
Definition stop_after_fetch (net : network) (symbol api_key : string)
    : M (option float) :=
  fetch_statements net symbol api_key;;;
  print FailedToRetrieve;;;
  ret None.

(** The valuation contract as the specification words it: whenever the
    four documents are there and the snapshot parses with a cash flow that
    reads as a number and a share count other than zero, the formula is
    returned. *)
Definition valuation_contract `{Runtime} (net : network)
    (symbol api_key : string) : Prop :=
  forall docs s fcf shares,
    outcome (fetch_statements net symbol api_key) = Ok docs ->
    all_retrieved docs = true ->
    parse_reports docs = Ok s ->
    py_float (fcf_data s) = Ok fcf ->
    shares_outstanding s <> 0 ->
    int_to_float (shares_outstanding s) = Ok shares ->
    outcome (calculate_dcf net symbol api_key) =
    Ok (Some (dcf_formula fcf (cash_and_equivalents s) (total_debt s)
                shares)).

(** The environment names the key and the symbol. *)
Definition configured (getenv : string -> option string)
    (symbol api_key : string) : Prop :=
  getenv "ALPHA_VANTAGE_API_KEY" = Some api_key /\ api_key <> "" /\
  getenv "STOCK_SYMBOL" = Some symbol /\ symbol <> "".

(** The verdict as the specification words it: undervalued exactly when
    [v > p], overvalued exactly when [v < p], fairly valued exactly when
    [v == p]. *)
Definition verdict_contract (v p : float) : Prop :=
  (compare_to_price v p = Undervalued <-> (p <? v)%float = true) /\
  (compare_to_price v p = Overvalued <-> (v <? p)%float = true) /\
  (compare_to_price v p = FairlyValued <-> (v =? p)%float = true).

(** The quote query of [main], and what a run printed of the report. *)
Definition quote_url (symbol api_key : string) : string :=
  query_url symbol "GLOBAL_QUOTE" api_key.

Definition prints_verdict (t : list event) : Prop :=
  exists c, In (Print (Conclusion c)) t.

(** [if intrinsic_value:] does not hold: the valuation returned [None] or
    zero. *)
Definition falsy (r : option float) : bool :=
  match r with
  | None => true
  | Some v => (v =? 0)%float
  end.

(** The gate of line 106 as the specification words it: a value of zero
    is treated as a failed valuation, and for every other value [main]
    fetches the quote and prints a verdict. *)
Definition gate_contract `{Runtime} (getenv : string -> option string)
    (net : network) (symbol api_key : string) : Prop :=
  forall v, outcome (calculate_dcf net symbol api_key) = Ok (Some v) ->
    let t := trace (main getenv net) in
    ((v =? 0)%float = true ->
     main getenv net =
     (Ok tt, Print (Calculating symbol) ::
             trace (calculate_dcf net symbol api_key))) /\
    ((v =? 0)%float = false ->
     In (HttpGet (quote_url symbol api_key)) t /\ prints_verdict t).

(** The runtime reads the figures of the worked example as Python does. *)
Definition reads_worked_figures `{Runtime} : Prop :=
  str_to_float "100" = Some 100%float /\
  str_to_float "1000" = Some 1000%float /\
  str_to_float "50" = Some 50%float /\
  str_to_float "30" = Some 30%float /\
  str_to_int "100" = Some 100.

Definition all_agree4 (xs : list float) (ts : list Q) : Prop :=
  Forall2 (fun x t => agree4 x t = true) xs ts.

(** The worked example with the figures the specification gives for it. *)
Definition worked_example_contract `{Runtime} : Prop :=
  exists l v,
    dcf_locals Example.worked_snapshot = Ok l /\
    outcome (calculate_dcf Example.worked Example.symbol Example.api_key)
    = Ok (Some v) /\
    all_agree4 (projected_fcf l)
      [105; 110.25; 115.7625; 121.550625; 127.62815625]%Q /\
    agree4 (present_value_fcf l) 473.3 = true /\
    agree4 (terminal_value l) 2012.67 = true /\
    agree4 (present_value_tv l) 1307.9 = true /\
    agree4 (enterprise_value l) 1781.2 = true /\
    agree4 (equity_value l) 1801.2 = true /\
    agree4 v 18.01 = true.

(** What an integer rounds to: an infinity, or a finite float in
    canonical form (never zero, never NaN). *)
Definition rounds_to (sf : spec_float) : Prop :=
  (exists s, sf = S754_infinity s) \/
  (exists s m e, sf = S754_finite s m e /\ bounded prec emax m e = true).

(** *** What a run requested and printed *)

Fixpoint requests (t : list event) : list string :=
  match t with
  | [] => []
  | HttpGet u :: rest => u :: requests rest
  | Print _ :: rest => requests rest
  end.

Fixpoint printed (t : list event) : list line :=
  match t with
  | [] => []
  | HttpGet _ :: rest => printed rest
  | Print l :: rest => l :: printed rest
  end.

Definition is_object (v : pyval) : bool :=
  match v with
  | PDict _ => true
  | _ => false
  end.

(** A payload that is neither an object, a list nor a string: [in] is
    not defined on it. *)
Definition is_scalar (v : pyval) : bool :=
  match v with
  | PNone | PBool _ | PInt _ | PFloat _ => true
  | _ => false
  end.

(** The exception classes no handler of the script names. *)
Definition unhandled (e : exn) : bool :=
  match e with
  | TypeError | ValueError | ZeroDivisionError | OverflowError => true
  | _ => false
  end.

(** An environment variable that [if not ...] rejects. *)
Definition unset (v : option string) : Prop := v = None \/ v = Some "".

(** *** Documents of the shape the provider sends *)

(** Every field of a report is a string. *)
Definition string_fields (d : gmap string pyval) : Prop :=
  forall k v, d !! k = Some v -> exists s, v = PStr s.

(** An object whose [annualReports], when there, is a list of objects
    with string fields. *)
Definition report_document (doc : pyval) : Prop :=
  exists d, doc = PDict d /\
    forall r, d !! "annualReports" = Some r ->
      exists l, r = PList l /\
        Forall (fun x => exists f, x = PDict f /\ string_fields f) l.

Definition overview_document (doc : pyval) : Prop :=
  exists d, doc = PDict d /\ string_fields d.

Definition provider_shaped (docs : statements) : Prop :=
  report_document (income_statement docs) /\
  report_document (cash_flow_statement docs) /\
  report_document (balance_sheet docs) /\
  overview_document (company_overview docs).

(** ** Properties *)

(** *** The monad *)

Lemma bind_ok {A B} (a : A) (t : list event) (k : A -> M B) :
  bind (Ok a, t) k = (fst (k a), t ++ snd (k a)).
Proof. unfold bind. now destruct (k a). Qed.

Lemma bind_raise {A B} (e : exn) (t : list event) (k : A -> M B) :
  bind (Raise e, t) k = (Raise e, t).
Proof. reflexivity. Qed.

Lemma bind_lift_ok {A B} (a : A) (k : A -> M B) : bind (lift (Ok a)) k = k a.
Proof. unfold lift, bind. now destruct (k a). Qed.

Lemma status_check (s : Z) :
  (400 <=? s) && (s <? 600) = true <-> 400 <= s < 600.
Proof. rewrite andb_true_iff, Z.leb_le, Z.ltb_lt. tauto. Qed.

(** *** Which exceptions the Python operations raise *)

Lemma py_contains_raises (k : string) (c : pyval) (e : exn) :
  py_contains k c = Raise e -> e = TypeError.
Proof. destruct c; cbn; congruence. Qed.

Lemma py_getitem_str_raises (c : pyval) (k : string) (e : exn) :
  py_getitem_str c k = Raise e -> e = KeyError \/ e = TypeError.
Proof.
  destruct c; cbn; try (intros [= <-]; now right).
  destruct (d !! k); [discriminate|]. intros [= <-]. now left.
Qed.

(** *** The data fetcher *)

Section Fetch.
Variables (net : network) (symbol function api_key : string).
Let url := query_url symbol function api_key.
Let run := get_alpha_vantage_data net symbol function api_key.

Lemma fetch_transport_failed :
  transport_failed net url ->
  run = (Ok PNone,
         [HttpGet url; Print (HttpRequestFailed ConnectionFailure)]).
Proof.
  unfold transport_failed, run, get_alpha_vantage_data, requests_get.
  fold url. now intros ->.
Qed.

Lemma fetch_status_failed :
  status_failed net url ->
  run = (Ok PNone, [HttpGet url; Print (HttpRequestFailed HTTPError)]).
Proof.
  intros (r & Hr & Hs). apply status_check in Hs.
  unfold run, get_alpha_vantage_data, requests_get, raise_for_status.
  fold url. rewrite Hr. cbn. now rewrite Hs.
Qed.

Lemma fetch_undecodable :
  undecodable net url ->
  run = (Ok PNone, [HttpGet url; Print (HttpRequestFailed JSONDecodeError)]).
Proof.
  intros (r & Hr & Hs & Hb). rewrite <- status_check in Hs.
  apply not_true_is_false in Hs.
  unfold run, get_alpha_vantage_data, requests_get, raise_for_status,
    response_json.
  fold url. rewrite Hr. cbn. rewrite Hs. cbn. now rewrite Hb.
Qed.

(** With a good status and a JSON body, what happens is decided by the
    payload alone (lines 16-19). *)
Lemma fetch_decoded (v : pyval) :
  decoded net url v ->
  run =
  bind (emit (HttpGet url))
    (fun _ =>
       has_error <- lift (py_contains "Error Message" v);;
       if has_error : bool then
         message <- lift (py_getitem_str v "Error Message");;
         print (ApiError symbol function message);;;
         ret PNone
       else ret v).
Proof.
  intros (r & Hr & Hs & Hb). rewrite <- status_check in Hs.
  apply not_true_is_false in Hs.
  unfold run, get_alpha_vantage_data, requests_get, raise_for_status,
    response_json.
  fold url. rewrite Hr. cbn. rewrite Hs. cbn. rewrite Hb. cbn.
  destruct (py_contains "Error Message" v) as [[|]|e] eqn:Hin; cbn.
  - destruct (py_getitem_str v "Error Message") as [m|e] eqn:Hget; cbn;
      [reflexivity|].
    now destruct (py_getitem_str_raises _ _ _ Hget) as [-> | ->].
  - reflexivity.
  - now rewrite (py_contains_raises _ _ _ Hin).
Qed.
End Fetch.

Section FetchOutcome.
Variables (net : network) (symbol function api_key : string).
Let url := query_url symbol function api_key.
Let run := get_alpha_vantage_data net symbol function api_key.

Lemma fetch_error_reported (d : gmap string pyval) (m : pyval) :
  decoded net url (PDict d) -> d !! "Error Message" = Some m ->
  run = (Ok PNone, [HttpGet url; Print (ApiError symbol function m)]).
Proof.
  intros Hd Hm. unfold run, url. rewrite (fetch_decoded _ _ _ _ _ Hd).
  cbn. rewrite Hm. reflexivity.
Qed.

Lemma fetch_document (d : gmap string pyval) :
  decoded net url (PDict d) -> d !! "Error Message" = None ->
  run = (Ok (PDict d), [HttpGet url]).
Proof.
  intros Hd Hm. unfold run, url. rewrite (fetch_decoded _ _ _ _ _ Hd).
  cbn. rewrite Hm. reflexivity.
Qed.

Lemma fetch_cases :
  transport_failed net url \/ status_failed net url \/
  undecodable net url \/ exists v, decoded net url v.
Proof.
  unfold transport_failed, status_failed, undecodable, decoded.
  destruct (net url) as [r|]; [|now left]. right.
  destruct (decide (400 <= status_code r < 600)) as [Hs|Hs];
    [left; eauto|right].
  destruct (json_body r) as [v|] eqn:Hb; [right|left]; eauto.
Qed.

(** A fetch that hands a document back printed nothing. *)
Lemma fetch_returned (v : pyval) :
  outcome run = Ok v ->
  v = PNone \/ (decoded net url v /\ run = (Ok v, [HttpGet url])).
Proof.
  destruct fetch_cases as [Hc|[Hc|[Hc|[v' Hc]]]].
  - unfold run, url. rewrite (fetch_transport_failed _ _ _ _ Hc).
    cbn. intros [= <-]. now left.
  - unfold run, url. rewrite (fetch_status_failed _ _ _ _ Hc).
    cbn. intros [= <-]. now left.
  - unfold run, url. rewrite (fetch_undecodable _ _ _ _ Hc).
    cbn. intros [= <-]. now left.
  - unfold run, url. rewrite (fetch_decoded _ _ _ _ _ Hc). cbn.
    destruct (py_contains "Error Message" v') as [[|]|e]; cbn.
    + destruct (py_getitem_str v' "Error Message"); cbn;
        [intros [= <-]; now left|discriminate].
    + intros [= <-]. now right.
    + discriminate.
Qed.
End FetchOutcome.

(** C7 (as amended): when the payload of a successful response, if it
    decodes, is a JSON object, the fetcher returns null and logs a message
    exactly when the transport fails, the status is an error, the body is
    not JSON, or the object has an ["Error Message"] field; otherwise it
    returns the decoded object and prints nothing. *)
Theorem fetcher_null_iff (net : network) (symbol function api_key : string) :
  let url := query_url symbol function api_key in
  let run := get_alpha_vantage_data net symbol function api_key in
  (forall v, decoded net url v -> exists d, v = PDict d) ->
  (returns_null run <->
   transport_failed net url \/ status_failed net url \/
   undecodable net url \/ error_reported net url) /\
  (~ returns_null run ->
   exists v, decoded net url v /\ run = (Ok v, [HttpGet url])).
Proof.
  intros url run Hobj.
  assert (Hfail : transport_failed net url \/ status_failed net url \/
                  undecodable net url \/ error_reported net url ->
                  returns_null run).
  { unfold returns_null, run, url.
    intros [Hc|[Hc|[Hc|(d & m & Hd & Hm)]]].
    - rewrite (fetch_transport_failed _ _ _ _ Hc). cbn. eauto 6.
    - rewrite (fetch_status_failed _ _ _ _ Hc). cbn. eauto 6.
    - rewrite (fetch_undecodable _ _ _ _ Hc). cbn. eauto 6.
    - rewrite (fetch_error_reported _ _ _ _ _ _ Hd Hm). cbn. eauto 6. }
  assert (Hdoc : forall d, decoded net url (PDict d) ->
                           d !! "Error Message" = None ->
                           ~ returns_null run).
  { intros d Hd Hm [Hnull _]. unfold run, url in Hnull.
    rewrite (fetch_document _ _ _ _ _ Hd Hm) in Hnull. discriminate. }
  destruct (fetch_cases net symbol function api_key)
    as [Hc|[Hc|[Hc|[v Hc]]]]; fold url in Hc.
  1-3: split; [split; [tauto|exact Hfail]|intros Hn; exfalso; tauto].
  destruct (Hobj v Hc) as [d ->].
  destruct (d !! "Error Message") as [m|] eqn:Hm.
  - assert (error_reported net url) by (exists d, m; auto).
    split; [split; [tauto|exact Hfail]|intros Hn; exfalso; tauto].
  - split; [split; [|exact Hfail]|].
    + intros Hn. now destruct (Hdoc d Hc Hm).
    + intros _. exists (PDict d). split; [exact Hc|].
      apply fetch_document; assumption.
Qed.

Lemma fetcher_null_iff_witness :
  let net := Example.worked in
  let url := query_url Example.symbol "OVERVIEW" Example.api_key in
  let run := get_alpha_vantage_data net Example.symbol "OVERVIEW"
               Example.api_key in
  (forall v, decoded net url v -> exists d, v = PDict d) /\
  (returns_null run <->
   transport_failed net url \/ status_failed net url \/
   undecodable net url \/ error_reported net url) /\
  (~ returns_null run ->
   exists v, decoded net url v /\ run = (Ok v, [HttpGet url])).
Proof.
  intros net url run.
  assert (Hobj : forall v, decoded net url v -> exists d, v = PDict d).
  { intros v (r & Hr & _ & Hb). vm_compute in Hr.
    injection Hr as <-. cbn in Hb. injection Hb as <-. eauto. }
  split; [exact Hobj|].
  exact (fetcher_null_iff net Example.symbol "OVERVIEW" Example.api_key Hobj).
Defined.

(** C7 (as stated) fails on a response with a good status whose body is
    not JSON: the fetcher returns null and logs a message, yet there is no
    transport error, no failure status and no error field. *)
Lemma fetcher_contract_fails_on_bad_body :
  ~ fetcher_contract
      (fun _ => Some {| status_code := 200; json_body := None |})
      Example.symbol "OVERVIEW" Example.api_key.
Proof.
  intros [[Hnull _] _].
  destruct Hnull as [Hc|[Hc|Hc]].
  - split; [reflexivity|]. eexists. cbn. right. left. reflexivity.
  - discriminate Hc.
  - destruct Hc as (r & [= <-] & Hs). cbn in Hs. lia.
  - destruct Hc as (d & m & (r & [= <-] & _ & Hb) & _). discriminate Hb.
Qed.

(** *** The four statement fetches *)

Lemma fetch_depends_on_answer (net1 net2 : network)
    (symbol function api_key : string) :
  net1 (query_url symbol function api_key) =
  net2 (query_url symbol function api_key) ->
  get_alpha_vantage_data net1 symbol function api_key =
  get_alpha_vantage_data net2 symbol function api_key.
Proof.
  intros Heq. unfold get_alpha_vantage_data, requests_get. now rewrite Heq.
Qed.

(** C9: [calculate_dcf] is a function of the four statement records: two
    runs, against providers that answer the four statement queries alike,
    return the same value (or raise the same exception) and print the
    same lines, whatever else differs between the providers. *)
Theorem calculate_dcf_deterministic `{Runtime} (net1 net2 : network)
    (symbol api_key : string) :
  (forall f, In f statement_functions ->
     net1 (query_url symbol f api_key) = net2 (query_url symbol f api_key)) ->
  calculate_dcf net1 symbol api_key = calculate_dcf net2 symbol api_key.
Proof.
  intros Hsame. unfold calculate_dcf, fetch_statements.
  rewrite !(fetch_depends_on_answer net1 net2)
    by (apply Hsame; unfold statement_functions; cbn; tauto).
  reflexivity.
Qed.

Lemma calculate_dcf_deterministic_witness :
  let net1 := Example.company "100" "1000" "50" "30" "100" None in
  let net2 := Example.company "100" "1000" "50" "30" "100"
                (Example.ok (Example.quote (PStr "12"))) in
  (forall f, In f statement_functions ->
     net1 (query_url Example.symbol f Example.api_key) =
     net2 (query_url Example.symbol f Example.api_key)) /\
  net1 (query_url Example.symbol "GLOBAL_QUOTE" Example.api_key) <>
  net2 (query_url Example.symbol "GLOBAL_QUOTE" Example.api_key) /\
  @calculate_dcf Reference.runtime net1 Example.symbol Example.api_key =
  @calculate_dcf Reference.runtime net2 Example.symbol Example.api_key.
Proof.
  intros net1 net2.
  assert (Hsame : forall f, In f statement_functions ->
            net1 (query_url Example.symbol f Example.api_key) =
            net2 (query_url Example.symbol f Example.api_key)).
  { intros f [<-|[<-|[<-|[<-|[]]]]]; reflexivity. }
  split; [exact Hsame|]. split; [discriminate|].
  exact (@calculate_dcf_deterministic Reference.runtime net1 net2
           Example.symbol Example.api_key Hsame).
Defined.

(** C6: when one of the four statement fetches returns null, the run is
    the four fetches followed by the failure message and [return None]:
    nothing is parsed, nothing is computed, and no value is returned. *)
Theorem failed_fetch_stops_valuation `{Runtime} (net : network)
    (symbol api_key : string) :
  (exists f, In f statement_functions /\
     outcome (get_alpha_vantage_data net symbol f api_key) = Ok PNone) ->
  calculate_dcf net symbol api_key = stop_after_fetch net symbol api_key /\
  forall v, outcome (calculate_dcf net symbol api_key) <> Ok (Some v).
Proof.
  intros (f & Hin & Hnull).
  assert (Hstop : calculate_dcf net symbol api_key =
                  stop_after_fetch net symbol api_key).
  { unfold calculate_dcf, stop_after_fetch, fetch_statements, all_retrieved.
    destruct (get_alpha_vantage_data net symbol "INCOME_STATEMENT" api_key)
      as [[d1|e1] t1] eqn:E1; [|reflexivity].
    destruct (get_alpha_vantage_data net symbol "CASH_FLOW" api_key)
      as [[d2|e2] t2] eqn:E2; [|reflexivity].
    destruct (get_alpha_vantage_data net symbol "BALANCE_SHEET" api_key)
      as [[d3|e3] t3] eqn:E3; [|reflexivity].
    destruct (get_alpha_vantage_data net symbol "OVERVIEW" api_key)
      as [[d4|e4] t4] eqn:E4; [|reflexivity].
    assert (Hfalse : forallb truthy [d1; d2; d3; d4] = false).
    { destruct Hin as [<-|[<-|[<-|[<-|[]]]]];
        [rewrite E1 in Hnull|rewrite E2 in Hnull
        |rewrite E3 in Hnull|rewrite E4 in Hnull];
        injection Hnull as ->; cbn;
        rewrite ?andb_false_r; reflexivity. }
    cbn -[forallb]. rewrite Hfalse. reflexivity. }
  split; [exact Hstop|].
  rewrite Hstop. unfold stop_after_fetch.
  destruct (fetch_statements net symbol api_key) as [[docs|e] t];
    cbn; congruence.
Qed.

Lemma failed_fetch_stops_valuation_witness :
  let net := Example.provider
               (Example.ok (Example.income (PStr "1000")))
               None
               (Example.ok (Example.balance (PStr "30") (PStr "50")))
               (Example.ok (Example.overview (PStr "100"))) None in
  (exists f, In f statement_functions /\
     outcome (get_alpha_vantage_data net Example.symbol f Example.api_key)
     = Ok PNone) /\
  @calculate_dcf Reference.runtime net Example.symbol Example.api_key =
  stop_after_fetch net Example.symbol Example.api_key /\
  forall v, outcome (@calculate_dcf Reference.runtime net Example.symbol
                       Example.api_key) <> Ok (Some v).
Proof.
  intros net.
  assert (Hnull : exists f, In f statement_functions /\
            outcome (get_alpha_vantage_data net Example.symbol f
                       Example.api_key) = Ok PNone).
  { exists "CASH_FLOW". split; [cbn; tauto|reflexivity]. }
  split; [exact Hnull|].
  exact (@failed_fetch_stops_valuation Reference.runtime net Example.symbol
           Example.api_key Hnull).
Defined.

(** *** The parse step and the valuation *)

Section Valuation.
Context `{Runtime}.

Lemma calculate_dcf_retrieved (net : network) (symbol api_key : string)
    (docs : statements) (t : list event) :
  fetch_statements net symbol api_key = (Ok docs, t) ->
  all_retrieved docs = true ->
  calculate_dcf net symbol api_key =
  (outcome (value_statements docs), t ++ trace (value_statements docs)).
Proof.
  intros Hfetch Hall. unfold calculate_dcf.
  rewrite Hfetch, bind_ok, Hall. reflexivity.
Qed.

Lemma value_statements_parsed (docs : statements) (s : snapshot) :
  parse_reports docs = Ok s ->
  value_statements docs =
  lift (v <~ intrinsic_value_per_share s;; Ok (Some v)).
Proof.
  intros Hparse. unfold value_statements. rewrite Hparse. cbn.
  now destruct (intrinsic_value_per_share s).
Qed.

(** The three exception classes of line 47 are reported and turned into
    [return None]. *)
Lemma value_statements_caught (docs : statements) (e : exn) :
  parse_reports docs = Raise e -> parse_handled e = true ->
  value_statements docs = (Ok None, [Print (ErrorParsing e)]).
Proof.
  intros Hparse Hcatch. unfold value_statements. rewrite Hparse. cbn.
  now rewrite Hcatch.
Qed.

Lemma is_finite_inv (x : float) :
  is_finite x = true -> is_nan x = false /\ is_infinity x = false.
Proof.
  unfold is_finite. rewrite negb_true_iff, orb_false_iff. tauto.
Qed.

(** With a regular [pow], [math.pow] returns the discount factor of each
    forecast year. *)
Lemma math_pow_discount (i : Z) :
  pow_regular -> In i (py_range 1 (forecast_years + 1)) ->
  math_pow (1 + discount_rate)%float i = Ok (discount_factor i) /\
  (discount_factor i =? 0)%float = false.
Proof.
  intros Hpow Hin. destruct (Hpow i Hin) as [Hfin Hnz].
  split; [|exact Hnz].
  apply is_finite_inv in Hfin as [Hnan Hinf].
  unfold math_pow. fold (discount_factor i) in *.
  assert (Hy : int_to_float i = Ok (nearest_float i) /\
               is_finite (1 + discount_rate)%float &&
               is_finite (nearest_float i) = true).
  { cbn in Hin.
    destruct Hin as [<-|[<-|[<-|[<-|[<-|[]]]]]]; split; reflexivity. }
  destruct Hy as [Hy Hargs]. rewrite Hy. cbn [rbind]. rewrite Hargs.
  fold (discount_factor i). now rewrite Hnan, Hinf.
Qed.

(** [l[-1]] is the last element. *)
Lemma seq_getitem_last {A} (l : list A) (a : A) :
  seq_getitem (l ++ [a]) (-1) = Ok a.
Proof.
  unfold seq_getitem. rewrite length_app. cbn [length].
  replace (-1 <? 0) with true by reflexivity.
  replace (-1 + Z.of_nat (length l + 1)) with (Z.of_nat (length l))
    by lia.
  replace (Z.of_nat (length l) <? 0) with false
    by (symmetry; apply Z.ltb_ge; lia).
  replace (Z.of_nat (length l + 1) <=? Z.of_nat (length l)) with false
    by (symmetry; apply Z.leb_gt; lia).
  cbn [orb]. rewrite Nat2Z.id.
  rewrite nth_error_app2, Nat.sub_diag by lia. reflexivity.
Qed.

(** The projection loop, for any horizon: after the years [1..k] the
    list holds their projections, and the years [k+1..k+m] extend it. *)
Lemma project_fcf_from (d : pyval) (fcf : float) (m k : nat) :
  py_float d = Ok fcf ->
  project_fcf d (map Z.of_nat (seq (S k) m))
    (map (projected fcf) (seq 1 k)) =
  Ok (map (projected fcf) (seq 1 (k + m))).
Proof.
  intros Hfcf. revert k.
  induction m as [|m IH]; intros k.
  - cbn. now rewrite Nat.add_0_r.
  - cbn [seq map project_fcf].
    assert (Hnext :
      (if Z.of_nat (S k) =? 1 then
         x <~ py_float d;; Ok (x * (1 + revenue_growth_rate))%float
       else
         last <~ seq_getitem (map (projected fcf) (seq 1 k)) (-1);;
         Ok (last * (1 + revenue_growth_rate))%float) =
      Ok (projected fcf (S k))).
    { destruct k as [|k].
      - cbn. now rewrite Hfcf.
      - replace (Z.of_nat (S (S k)) =? 1) with false
          by (symmetry; apply Z.eqb_neq; lia).
        rewrite seq_S, map_app. cbn [map].
        now rewrite seq_getitem_last. }
    rewrite Hnext. cbn [rbind].
    replace (map (projected fcf) (seq 1 k) ++ [projected fcf (S k)])
      with (map (projected fcf) (seq 1 (S k)))
      by (rewrite seq_S, map_app; reflexivity).
    rewrite IH. f_equal. f_equal. f_equal. lia.
Qed.

Lemma project_fcf_years (d : pyval) (fcf : float) :
  py_float d = Ok fcf ->
  project_fcf d (py_range 1 (forecast_years + 1)) [] =
  Ok (map (projected fcf) [1; 2; 3; 4; 5]%nat).
Proof.
  intros Hfcf. exact (project_fcf_from d fcf 5 0 Hfcf).
Qed.

(** The discounting loop adds one discounted term per year, in order. *)
Lemma discount_fcf_sum (years : list (Z * float)) (acc : float) :
  pow_regular ->
  (forall i x, In (i, x) years ->
     In i (py_range 1 (forecast_years + 1))) ->
  discount_fcf years acc =
  Ok (fold_left (fun a '(i, x) => (a + x / discount_factor i)%float)
        years acc).
Proof.
  intros Hpow. revert acc.
  induction years as [|[i x] years IH]; intros acc Hyears;
    [reflexivity|].
  cbn [discount_fcf fold_left].
  destruct (math_pow_discount i Hpow) as [-> Hnz];
    [apply (Hyears i x); now left|].
  cbn [rbind]. unfold float_truediv. rewrite Hnz. cbn [rbind].
  apply IH. intros j y Hin. apply (Hyears j y). now right.
Qed.

(** Lines 54-83 compute the quantities of the specification. *)
Lemma dcf_locals_formula (s : snapshot) (fcf revenue : float) :
  pow_regular ->
  py_float (fcf_data s) = Ok fcf ->
  py_float (revenue_data s) = Ok revenue ->
  (revenue =? 0)%float = false ->
  dcf_locals s =
  Ok {| fcf_margin := (fcf / revenue)%float;
        projected_fcf := map (projected fcf) [1; 2; 3; 4; 5]%nat;
        present_value_fcf := pv_forecast fcf;
        terminal_fcf :=
          (projected fcf 5 * (1 + terminal_growth_rate))%float;
        terminal_value := terminal fcf;
        present_value_tv := pv_terminal fcf;
        enterprise_value := (pv_forecast fcf + pv_terminal fcf)%float;
        equity_value :=
          (pv_forecast fcf + pv_terminal fcf + cash_and_equivalents s
           - total_debt s)%float |}.
Proof.
  intros Hpow Hfcf Hrev Hnz. unfold dcf_locals.
  rewrite Hfcf, Hrev. cbn [rbind].
  unfold float_truediv at 1. rewrite Hnz. cbn [rbind].
  rewrite (project_fcf_years _ _ Hfcf). cbn [rbind].
  rewrite discount_fcf_sum; [|exact Hpow|].
  2:{ intros i x Hin. cbn in Hin |- *.
      destruct Hin as [[= <- _]|[[= <- _]|[[= <- _]|[[= <- _]|
                      [[= <- _]|[]]]]]]; vm_compute; tauto. }
  cbn [rbind].
  change [1; 2; 3; 4; 5]%nat with ([1; 2; 3; 4]%nat ++ [5%nat]).
  rewrite map_app. cbn [map]. rewrite seq_getitem_last. cbn [rbind].
  unfold float_truediv at 1.
  replace (discount_rate - terminal_growth_rate =? 0)%float with false
    by reflexivity.
  cbn [rbind].
  destruct (math_pow_discount forecast_years Hpow) as [-> Hnz5];
    [vm_compute; tauto|].
  cbn [rbind]. unfold float_truediv. rewrite Hnz5. cbn [rbind].
  reflexivity.
Qed.
End Valuation.

(** *** Integers never round to zero *)

Lemma digits2_bounds (m : positive) :
  2 ^ (Zpos (digits2_pos m) - 1) <= Zpos m < 2 ^ Zpos (digits2_pos m).
Proof.
  induction m as [m IH|m IH|]; cbn [digits2_pos]; [| |cbn; lia];
    rewrite Pos2Z.inj_succ;
    replace (Z.succ (Zpos (digits2_pos m)) - 1) with (Zpos (digits2_pos m))
      by lia;
    rewrite Z.pow_succ_r by lia;
    assert (Hpow : 2 ^ Zpos (digits2_pos m) =
                   2 * 2 ^ (Zpos (digits2_pos m) - 1))
      by (rewrite <- Z.pow_succ_r by lia; f_equal; lia);
    lia.
Qed.

Lemma digits2_unique (m : positive) (k : Z) :
  2 ^ (k - 1) <= Zpos m < 2 ^ k -> Zpos (digits2_pos m) = k.
Proof.
  intros [Hlo Hhi]. pose proof (digits2_bounds m) as [Hlo' Hhi'].
  set (d := Zpos (digits2_pos m)) in *.
  destruct (Z.lt_trichotomy d k) as [Hlt|[Heq|Hgt]]; [exfalso|exact Heq|exfalso].
  - assert (2 ^ d <= 2 ^ (k - 1)) by (apply Z.pow_le_mono_r; lia). lia.
  - assert (0 <= k).
    { destruct (Z.le_gt_cases 0 k); [assumption|].
      rewrite (Z.pow_neg_r 2 k) in Hhi by lia. lia. }
    assert (2 ^ k <= 2 ^ (d - 1)) by (apply Z.pow_le_mono_r; lia). lia.
Qed.

Lemma digits2_shift (m k : positive) :
  Zpos (digits2_pos (Pos.iter xO m k)) = Zpos (digits2_pos m) + Zpos k.
Proof.
  induction k as [|k IH] using Pos.peano_ind.
  - cbn. lia.
  - rewrite Pos.iter_succ. cbn [digits2_pos].
    rewrite !Pos2Z.inj_succ, IH. lia.
Qed.

Lemma shr_1_half (mrs : shr_record) :
  0 <= shr_m mrs -> shr_m (shr_1 mrs) = shr_m mrs / 2.
Proof.
  destruct mrs as [m r s]. cbn [shr_m]. intros Hm.
  rewrite <- Z.div2_div.
  destruct m as [|[p|p|]|p]; try reflexivity. lia.
Qed.

Lemma shr_iter_div (p : positive) (mrs : shr_record) :
  0 <= shr_m mrs ->
  shr_m (SpecFloat.iter_pos shr_1 p mrs) = shr_m mrs / 2 ^ Zpos p.
Proof.
  revert mrs.
  induction p as [p IH|p IH|]; intros mrs Hm; cbn [SpecFloat.iter_pos].
  - assert (0 <= shr_m (shr_1 mrs))
      by (rewrite shr_1_half by assumption; apply Z.div_pos; lia).
    assert (0 <= shr_m (SpecFloat.iter_pos shr_1 p (shr_1 mrs)))
      by (rewrite IH by assumption; apply Z.div_pos; lia).
    rewrite !IH, shr_1_half by assumption.
    rewrite !Z.div_div by lia. f_equal.
    replace (Zpos p~1) with (1 + (Zpos p + Zpos p)) by lia.
    rewrite !Z.pow_add_r by lia. now rewrite Z.pow_1_r.
  - assert (0 <= shr_m (SpecFloat.iter_pos shr_1 p mrs))
      by (rewrite IH by assumption; apply Z.div_pos; lia).
    rewrite !IH by assumption.
    rewrite !Z.div_div by lia. f_equal.
    replace (Zpos p~0) with (Zpos p + Zpos p) by lia.
    now rewrite Z.pow_add_r by lia.
  - rewrite shr_1_half by assumption. reflexivity.
Qed.

(** A mantissa of 53 digits is left alone. *)
Lemma shr_fexp_canonical (m : positive) (e : Z) (l : location) :
  Zpos (digits2_pos m) = 53 -> -1074 <= e ->
  shr_fexp prec emax (Zpos m) e l = (shr_record_of_loc (Zpos m) l, e).
Proof.
  intros Hd He. unfold shr_fexp. cbn [Zdigits2]. rewrite Hd.
  replace (fexp prec emax (53 + e) - e) with 0
    by (unfold fexp, SpecFloat.emin, prec, emax; lia).
  reflexivity.
Qed.

Lemma bounded_canonical (m : positive) (e : Z) :
  Zpos (digits2_pos m) = 53 -> -1074 <= e <= 971 ->
  bounded prec emax m e = true.
Proof.
  intros Hd He. unfold bounded, canonical_mantissa. rewrite Hd.
  apply andb_true_iff. split.
  - apply Z.eqb_eq. unfold fexp, SpecFloat.emin, prec, emax. lia.
  - apply Z.leb_le. unfold prec, emax. lia.
Qed.

(** Rounding a mantissa of 53 digits. *)
Lemma binary_round_aux_canonical (s : bool) (m : positive) (e : Z) :
  Zpos (digits2_pos m) = 53 -> -1074 <= e ->
  rounds_to (binary_round_aux prec emax s (Zpos m) e loc_Exact).
Proof.
  intros Hd He. unfold binary_round_aux.
  rewrite (shr_fexp_canonical m e loc_Exact Hd He).
  cbn [shr_record_of_loc shr_m loc_of_shr_record round_nearest_even].
  rewrite (shr_fexp_canonical m e loc_Exact Hd He).
  cbn [shr_record_of_loc shr_m].
  destruct (e <=? emax - prec) eqn:Hle.
  - right. exists s, m, e. split; [reflexivity|].
    apply bounded_canonical; [assumption|].
    apply Z.leb_le in Hle. unfold prec, emax in Hle. lia.
  - left. eauto.
Qed.

(** Rounding a mantissa of more than 53 digits at exponent 0. *)
Lemma binary_round_aux_long (s : bool) (m : positive) :
  53 < Zpos (digits2_pos m) ->
  rounds_to (binary_round_aux prec emax s (Zpos m) 0 loc_Exact).
Proof.
  intros Hd. pose proof (digits2_bounds m) as [Hlo Hhi].
  set (d := Zpos (digits2_pos m)) in *.
  unfold binary_round_aux.
  assert (Hshift : exists p, d - 53 = Zpos p)
    by (destruct (d - 53) as [|p|p] eqn:E; try lia; eauto).
  destruct Hshift as [p Hp].
  assert (Hfirst : shr_fexp prec emax (Zpos m) 0 loc_Exact =
                   (SpecFloat.iter_pos shr_1 p (shr_record_of_loc (Zpos m) loc_Exact),
                    Zpos p)).
  { unfold shr_fexp. cbn [Zdigits2]. fold d.
    replace (fexp prec emax (d + 0) - 0) with (Zpos p)
      by (unfold fexp, SpecFloat.emin, prec, emax; lia).
    reflexivity. }
  rewrite Hfirst.
  set (mrs := SpecFloat.iter_pos shr_1 p (shr_record_of_loc (Zpos m) loc_Exact)).
  assert (Hm1 : 2 ^ 52 <= shr_m mrs < 2 ^ 53).
  { unfold mrs. rewrite shr_iter_div by (cbn; lia). cbn [shr_record_of_loc shr_m].
    assert (Hpow : 2 ^ d = 2 ^ Zpos p * 2 ^ 53)
      by (rewrite <- Z.pow_add_r by lia; f_equal; lia).
    assert (Hpow' : 2 ^ (d - 1) = 2 ^ Zpos p * 2 ^ 52)
      by (rewrite <- Z.pow_add_r by lia; f_equal; lia).
    split.
    - apply Z.div_le_lower_bound; lia.
    - apply Z.div_lt_upper_bound; lia. }
  set (m2 := round_nearest_even (shr_m mrs) (loc_of_shr_record mrs)).
  assert (Hm2 : 2 ^ 52 <= m2 <= 2 ^ 53).
  { unfold m2, round_nearest_even.
    destruct (loc_of_shr_record mrs) as [|[| |]];
      try destruct (Z.even (shr_m mrs)); lia. }
  destruct m2 as [|q|q] eqn:Hq; try lia.
  destruct (Z.eq_dec (Zpos q) (2 ^ 53)) as [Htop|Htop].
  - (* the mantissa was rounded up to a power of two *)
    assert (Hq53 : q = 9007199254740992%positive)
      by (apply Pos2Z.inj; rewrite Htop; reflexivity).
    rewrite Hq53. unfold shr_fexp. cbn [Zdigits2].
    change (Zpos (digits2_pos 9007199254740992)) with 54.
    replace (fexp prec emax (54 + Zpos p) - Zpos p) with 1
      by (unfold fexp, SpecFloat.emin, prec, emax; lia).
    cbn [shr SpecFloat.iter_pos shr_record_of_loc shr_1 shr_m].
    destruct (Zpos p + 1 <=? emax - prec) eqn:Hle.
    + right. do 3 eexists. split; [reflexivity|].
      apply bounded_canonical; [reflexivity|].
      apply Z.leb_le in Hle. unfold prec, emax in Hle. lia.
    + left. eauto.
  - assert (Hdq : Zpos (digits2_pos q) = 53)
      by (apply digits2_unique; lia).
    rewrite (shr_fexp_canonical q (Zpos p) loc_Exact Hdq) by lia.
    cbn [shr_record_of_loc shr_m].
    destruct (Zpos p <=? emax - prec) eqn:Hle.
    + right. do 3 eexists. split; [reflexivity|].
      apply bounded_canonical; [assumption|].
      apply Z.leb_le in Hle. unfold prec, emax in Hle. lia.
    + left. eauto.
Qed.

Lemma binary_round_integer (s : bool) (m : positive) :
  rounds_to (binary_round prec emax s m 0).
Proof.
  unfold binary_round, shl_align.
  pose proof (digits2_bounds m) as Hb.
  set (d := Zpos (digits2_pos m)) in *.
  replace (fexp prec emax (d + 0) - 0) with (d - 53)
    by (unfold fexp, SpecFloat.emin, prec, emax; lia).
  replace (fexp prec emax (d + 0)) with (d - 53)
    by (unfold fexp, SpecFloat.emin, prec, emax; lia).
  destruct (d - 53) as [|p|p] eqn:Hp.
  - apply binary_round_aux_canonical; fold d; lia.
  - apply binary_round_aux_long. fold d. lia.
  - apply binary_round_aux_canonical; [|lia].
    rewrite digits2_shift. fold d. lia.
Qed.

Lemma rounds_to_nonzero (sf : spec_float) :
  rounds_to sf -> (SF2Prim sf =? 0)%float = false.
Proof.
  intros [[s ->]|(s & m & e & -> & Hb)].
  - now destruct s.
  - rewrite FloatAxioms.eqb_spec, Prim2SF_SF2Prim by exact Hb.
    now destruct s.
Qed.

Lemma nearest_float_nonzero (n : Z) :
  n <> 0 -> (nearest_float n =? 0)%float = false.
Proof.
  intros Hn. apply rounds_to_nonzero. unfold binary_normalize.
  destruct n as [|m|m]; [congruence| |]; apply binary_round_integer.
Qed.

Lemma int_to_float_nonzero (n : Z) (x : float) :
  n <> 0 -> int_to_float n = Ok x -> (x =? 0)%float = false.
Proof.
  intros Hn. unfold int_to_float.
  destruct (is_infinity (nearest_float n)); [discriminate|].
  intros [= <-]. now apply nearest_float_nonzero.
Qed.

(** *** The valuation formula *)

(** The constants the script computes are the floats the specification
    writes: 1.05, 1.09, 1.025 and 0.065. *)
Lemma constants_as_written :
  (1 + revenue_growth_rate = 1.05)%float /\
  (1 + discount_rate = 1.09)%float /\
  (1 + terminal_growth_rate = 1.025)%float /\
  (discount_rate - terminal_growth_rate = 0.065)%float.
Proof. repeat split; vm_compute; reflexivity. Qed.

Lemma float_truediv_nonzero (a b : float) :
  (b =? 0)%float = false -> float_truediv a b = Ok (a / b)%float.
Proof. unfold float_truediv. now intros ->. Qed.

Lemma fetch_statements_split (net : network) (symbol api_key : string)
    (docs : statements) :
  outcome (fetch_statements net symbol api_key) = Ok docs ->
  fetch_statements net symbol api_key =
  (Ok docs, trace (fetch_statements net symbol api_key)).
Proof.
  unfold outcome, trace.
  destruct (fetch_statements net symbol api_key) as [r t]. cbn.
  now intros ->.
Qed.

(** With a share count that converts to a float other than zero, the
    value returned is the formula. *)
Lemma calculate_dcf_value `{Runtime} (net : network)
    (symbol api_key : string) (docs : statements) (s : snapshot)
    (fcf revenue shares : float) :
  pow_regular ->
  outcome (fetch_statements net symbol api_key) = Ok docs ->
  all_retrieved docs = true ->
  parse_reports docs = Ok s ->
  py_float (fcf_data s) = Ok fcf ->
  py_float (revenue_data s) = Ok revenue ->
  (revenue =? 0)%float = false ->
  int_to_float (shares_outstanding s) = Ok shares ->
  (shares =? 0)%float = false ->
  calculate_dcf net symbol api_key =
  (Ok (Some (dcf_formula fcf (cash_and_equivalents s) (total_debt s)
               shares)),
   trace (fetch_statements net symbol api_key)).
Proof.
  intros Hpow Hfetch Hall Hparse Hfcf Hrev Hnz Hshares Hsnz.
  rewrite (calculate_dcf_retrieved _ _ _ _ _
             (fetch_statements_split _ _ _ _ Hfetch) Hall).
  rewrite (value_statements_parsed _ _ Hparse).
  unfold intrinsic_value_per_share.
  rewrite (dcf_locals_formula s fcf revenue Hpow Hfcf Hrev Hnz).
  cbn [rbind equity_value]. unfold float_truediv_int.
  rewrite Hshares. cbn [rbind].
  rewrite (float_truediv_nonzero _ _ Hsnz).
  cbn. now rewrite app_nil_r.
Qed.

(** C1 (as amended): when the four documents are there, the snapshot
    parses, the cash flow and the revenue read as floats with a revenue
    other than zero, and the share count is not zero and converts to a
    float, [calculate_dcf] returns
    [(PV + PVTV + cash - liabilities) / shares] as the specification
    defines its terms, every operation being the binary64 one, in the
    order of the source; it prints nothing. *)
Theorem calculate_dcf_formula `{Runtime} (net : network)
    (symbol api_key : string) (docs : statements) (s : snapshot)
    (fcf revenue shares : float) :
  pow_regular ->
  outcome (fetch_statements net symbol api_key) = Ok docs ->
  all_retrieved docs = true ->
  parse_reports docs = Ok s ->
  py_float (fcf_data s) = Ok fcf ->
  py_float (revenue_data s) = Ok revenue ->
  (revenue =? 0)%float = false ->
  shares_outstanding s <> 0 ->
  int_to_float (shares_outstanding s) = Ok shares ->
  calculate_dcf net symbol api_key =
  (Ok (Some (dcf_formula fcf (cash_and_equivalents s) (total_debt s)
               shares)),
   trace (fetch_statements net symbol api_key)).
Proof.
  intros Hpow Hfetch Hall Hparse Hfcf Hrev Hnz Hsome Hshares.
  apply (calculate_dcf_value net symbol api_key docs s fcf revenue shares);
    try assumption.
  exact (int_to_float_nonzero _ _ Hsome Hshares).
Qed.

Lemma reference_pow_faithful : @pow_faithful Reference.runtime.
Proof.
  intros i Hin. vm_compute in Hin.
  destruct Hin as [<-|[<-|[<-|[<-|[<-|[]]]]]];
    right; left; vm_compute; reflexivity.
Qed.

Lemma reference_pow_regular : @pow_regular Reference.runtime.
Proof.
  intros i Hin. vm_compute in Hin.
  destruct Hin as [<-|[<-|[<-|[<-|[<-|[]]]]]];
    split; vm_compute; reflexivity.
Qed.

Lemma calculate_dcf_formula_witness :
  let net := Example.worked in
  let docs := Example.documents "100" "1000" "50" "30" "100" in
  let s := Example.worked_snapshot in
  outcome (fetch_statements net Example.symbol Example.api_key) = Ok docs /\
  all_retrieved docs = true /\
  @parse_reports Reference.runtime docs = Ok s /\
  @calculate_dcf Reference.runtime net Example.symbol Example.api_key =
  (Ok (Some (@dcf_formula Reference.runtime 100 50 30 100)),
   trace (fetch_statements net Example.symbol Example.api_key)).
Proof.
  intros net docs s.
  assert (Hfetch : outcome (fetch_statements net Example.symbol
                              Example.api_key) = Ok docs)
    by (vm_compute; reflexivity).
  assert (Hall : all_retrieved docs = true) by (vm_compute; reflexivity).
  assert (Hparse : @parse_reports Reference.runtime docs = Ok s)
    by (vm_compute; reflexivity).
  split; [exact Hfetch|]. split; [exact Hall|]. split; [exact Hparse|].
  apply (@calculate_dcf_formula Reference.runtime net Example.symbol
           Example.api_key docs s 100%float 1000%float 100%float
           reference_pow_regular Hfetch Hall Hparse);
    first [vm_compute; reflexivity
          |intros Hzero; vm_compute in Hzero; discriminate Hzero].
Defined.

(** C1 (as stated) fails for a company that reports a revenue of zero:
    every figure parses and there are 100 shares, yet line 55 divides the
    cash flow by the revenue and [calculate_dcf] raises
    [ZeroDivisionError] instead of returning a value. *)
Lemma valuation_contract_fails_at_zero_revenue :
  ~ @valuation_contract Reference.runtime
      (Example.company "100" "0" "50" "30" "100" None)
      Example.symbol Example.api_key.
Proof.
  intros Hcontract.
  specialize (Hcontract (Example.documents "100" "0" "50" "30" "100")
                {| fcf_data := PStr "100"; revenue_data := PStr "0";
                   shares_outstanding := 100; total_debt := 30%float;
                   cash_and_equivalents := 50%float |}
                100%float 100%float).
  assert (Hraise :
    outcome (@calculate_dcf Reference.runtime
               (Example.company "100" "0" "50" "30" "100" None)
               Example.symbol Example.api_key) = Raise ZeroDivisionError)
    by (vm_compute; reflexivity).
  rewrite Hraise in Hcontract.
  discriminate Hcontract; try (vm_compute; reflexivity).
  cbn. discriminate.
Qed.

(** *** Exceptions that are not caught *)

Lemma outcome_bind_raise {A B} (m : M A) (k : A -> M B) (e : exn) :
  outcome m = Raise e -> outcome (bind m k) = Raise e.
Proof.
  destruct m as [[a|e'] t]; cbn; [discriminate|]. now intros [= ->].
Qed.

Lemma outcome_bind_ok {A B} (m : M A) (k : A -> M B) (a : A) :
  outcome m = Ok a -> outcome (bind m k) = outcome (k a).
Proof.
  destruct m as [[a'|e'] t]; cbn; [|discriminate].
  intros [= ->]. now destruct (k a).
Qed.

Lemma trace_bind_ok {A B} (m : M A) (k : A -> M B) (a : A) :
  outcome m = Ok a -> trace (bind m k) = trace m ++ trace (k a).
Proof.
  destruct m as [[a'|e'] t]; cbn; [|discriminate].
  intros [= ->]. now destruct (k a).
Qed.

Section Main.
Context `{Runtime}.

(** Lines 103-106, once the environment is read. *)
Lemma main_configured (getenv : string -> option string) (net : network)
    (symbol api_key : string) :
  configured getenv symbol api_key ->
  main getenv net =
  (print (Calculating symbol);;;
   intrinsic_value <- calculate_dcf net symbol api_key;;
   match intrinsic_value with
   | None => ret tt
   | Some v =>
       if truthy (PFloat v) then report net symbol api_key v else ret tt
   end).
Proof.
  intros (Hkey & Hk & Hsym & Hs). unfold main. rewrite Hkey, Hsym.
  destruct api_key; [congruence|]. destruct symbol; [congruence|].
  reflexivity.
Qed.

(** What [calculate_dcf] raises, [main] raises. *)
Lemma main_propagates (getenv : string -> option string) (net : network)
    (symbol api_key : string) (e : exn) :
  configured getenv symbol api_key ->
  outcome (calculate_dcf net symbol api_key) = Raise e ->
  outcome (main getenv net) = Raise e.
Proof.
  intros Hconf Hraise. rewrite (main_configured _ _ _ _ Hconf).
  unfold print, emit. rewrite bind_ok. cbn [outcome fst].
  now apply outcome_bind_raise.
Qed.
End Main.

(** C5: with zero shares outstanding the division of line 84 raises
    [ZeroDivisionError]; neither [calculate_dcf] nor [main] catches it, so
    it ends the run instead of becoming a no-result. The divisor of the
    terminal value is computed without a guard as well, but with the
    fixed rates it is not zero and that division never raises. *)
Theorem zero_shares_raise `{Runtime} (getenv : string -> option string)
    (net : network) (symbol api_key : string) (docs : statements)
    (s : snapshot) (fcf revenue : float) :
  pow_regular ->
  configured getenv symbol api_key ->
  outcome (fetch_statements net symbol api_key) = Ok docs ->
  all_retrieved docs = true ->
  parse_reports docs = Ok s ->
  shares_outstanding s = 0 ->
  py_float (fcf_data s) = Ok fcf ->
  py_float (revenue_data s) = Ok revenue ->
  outcome (calculate_dcf net symbol api_key) = Raise ZeroDivisionError /\
  outcome (main getenv net) = Raise ZeroDivisionError /\
  ((revenue =? 0)%float = false ->
   exists l, dcf_locals s = Ok l /\
     float_truediv_int (equity_value l) (shares_outstanding s) =
     Raise ZeroDivisionError) /\
  (forall x,
     float_truediv x (discount_rate - terminal_growth_rate)%float =
     Ok (x / (discount_rate - terminal_growth_rate))%float).
Proof.
  intros Hpow Hconf Hfetch Hall Hparse Hzero Hfcf Hrev.
  assert (Hdiv : forall x, float_truediv_int x (shares_outstanding s) =
                           Raise ZeroDivisionError)
    by (intros x; rewrite Hzero; reflexivity).
  assert (Hcalc : outcome (calculate_dcf net symbol api_key) =
                  Raise ZeroDivisionError).
  { rewrite (calculate_dcf_retrieved _ _ _ _ _
               (fetch_statements_split _ _ _ _ Hfetch) Hall).
    rewrite (value_statements_parsed _ _ Hparse).
    unfold intrinsic_value_per_share.
    destruct (revenue =? 0)%float eqn:Hnz.
    - unfold dcf_locals. rewrite Hfcf, Hrev. cbn [rbind].
      unfold float_truediv at 1. rewrite Hnz. reflexivity.
    - rewrite (dcf_locals_formula s fcf revenue Hpow Hfcf Hrev Hnz).
      cbn [rbind]. rewrite Hdiv. reflexivity. }
  split; [exact Hcalc|].
  split; [exact (main_propagates _ _ _ _ _ Hconf Hcalc)|].
  split; [|intros x; reflexivity].
  intros Hnz. eexists. split; [|apply Hdiv].
  exact (dcf_locals_formula s fcf revenue Hpow Hfcf Hrev Hnz).
Qed.

Lemma configured_example :
  configured Example.getenv Example.symbol Example.api_key.
Proof. repeat split; discriminate. Qed.

Lemma zero_shares_raise_witness :
  let net := Example.company "100" "1000" "50" "30" "0" None in
  let docs := Example.documents "100" "1000" "50" "30" "0" in
  let s := {| fcf_data := PStr "100"; revenue_data := PStr "1000";
              shares_outstanding := 0; total_debt := 30%float;
              cash_and_equivalents := 50%float |} in
  (outcome (fetch_statements net Example.symbol Example.api_key) = Ok docs /\
   all_retrieved docs = true /\
   @parse_reports Reference.runtime docs = Ok s) /\
  outcome (@calculate_dcf Reference.runtime net Example.symbol
             Example.api_key) = Raise ZeroDivisionError /\
  outcome (@main Reference.runtime Example.getenv net) =
  Raise ZeroDivisionError.
Proof.
  intros net docs s.
  assert (Hfetch : outcome (fetch_statements net Example.symbol
                              Example.api_key) = Ok docs)
    by (vm_compute; reflexivity).
  assert (Hall : all_retrieved docs = true) by (vm_compute; reflexivity).
  assert (Hparse : @parse_reports Reference.runtime docs = Ok s)
    by (vm_compute; reflexivity).
  split; [auto|].
  destruct (@zero_shares_raise Reference.runtime Example.getenv net
              Example.symbol Example.api_key docs s 100%float 1000%float
              reference_pow_regular configured_example Hfetch Hall Hparse
              eq_refl eq_refl eq_refl) as (Hcalc & Hmain & _).
  split; assumption.
Defined.

(** *** The revenue *)

Lemma latest_annual_truthy (doc : pyval) (field : string) (v : pyval) :
  latest_annual doc field = Ok v -> truthy doc = true.
Proof.
  unfold latest_annual. destruct doc; cbn; try discriminate.
  intros Hlatest. rewrite bool_decide_false; [reflexivity|].
  intros ->. now rewrite lookup_empty in Hlatest.
Qed.

Section Revenue.
Context `{Runtime}.

(** The revenue is read and divided by, and nothing is done with the
    quotient: two snapshots that differ in the revenue alone are worth
    the same. *)
Lemma intrinsic_value_ignores_revenue (fd rv1 rv2 : pyval) (sh : Z)
    (td ce r1 r2 : float) :
  py_float rv1 = Ok r1 -> py_float rv2 = Ok r2 ->
  (r1 =? 0)%float = false -> (r2 =? 0)%float = false ->
  intrinsic_value_per_share
    {| fcf_data := fd; revenue_data := rv1; shares_outstanding := sh;
       total_debt := td; cash_and_equivalents := ce |} =
  intrinsic_value_per_share
    {| fcf_data := fd; revenue_data := rv2; shares_outstanding := sh;
       total_debt := td; cash_and_equivalents := ce |}.
Proof.
  intros Hr1 Hr2 Hnz1 Hnz2.
  unfold intrinsic_value_per_share, dcf_locals.
  cbn [fcf_data revenue_data shares_outstanding total_debt
       cash_and_equivalents].
  destruct (py_float fd) as [fcf|e]; [|reflexivity].
  rewrite Hr1, Hr2. cbn [rbind].
  rewrite (float_truediv_nonzero fcf r1 Hnz1),
          (float_truediv_nonzero fcf r2 Hnz2).
  cbn [rbind].
  destruct (project_fcf _ _ _) as [projected|e]; [|reflexivity].
  cbn [rbind].
  destruct (discount_fcf _ _) as [pv|e]; [|reflexivity]. cbn [rbind].
  destruct (seq_getitem _ _) as [last|e]; [|reflexivity]. cbn [rbind].
  destruct (float_truediv _ _) as [tv|e]; [|reflexivity]. cbn [rbind].
  destruct (math_pow _ _) as [factor|e]; [|reflexivity]. cbn [rbind].
  destruct (float_truediv _ _) as [pvtv|e]; reflexivity.
Qed.

Lemma value_statements_ignores_revenue (inc1 inc2 cf bal ov rv1 rv2 : pyval)
    (r1 r2 : float) :
  latest_annual inc1 "totalRevenue" = Ok rv1 ->
  latest_annual inc2 "totalRevenue" = Ok rv2 ->
  py_float rv1 = Ok r1 -> py_float rv2 = Ok r2 ->
  (r1 =? 0)%float = false -> (r2 =? 0)%float = false ->
  value_statements
    {| income_statement := inc1; cash_flow_statement := cf;
       balance_sheet := bal; company_overview := ov |} =
  value_statements
    {| income_statement := inc2; cash_flow_statement := cf;
       balance_sheet := bal; company_overview := ov |}.
Proof.
  intros Hrv1 Hrv2 Hr1 Hr2 Hnz1 Hnz2.
  unfold value_statements, parse_reports.
  cbn [income_statement cash_flow_statement balance_sheet
       company_overview].
  rewrite Hrv1, Hrv2.
  destruct (latest_annual cf "freeCashFlow") as [fd|e]; [|reflexivity].
  cbn [rbind].
  destruct (py_getitem_str ov "SharesOutstanding") as [ss|e];
    [|reflexivity].
  cbn [rbind].
  destruct (py_int ss) as [sh|e]; [|reflexivity]. cbn [rbind].
  destruct (latest_annual bal "totalLiabilities") as [ls|e];
    [|reflexivity].
  cbn [rbind].
  destruct (py_float ls) as [td|e]; [|reflexivity]. cbn [rbind].
  destruct (latest_annual bal "cashAndCashEquivalents") as [cs|e];
    [|reflexivity].
  cbn [rbind].
  destruct (py_float cs) as [ce|e]; [|reflexivity]. cbn [rbind].
  rewrite !bind_lift_ok. cbn [try_except ret bind].
  cbn [app].
  now rewrite (intrinsic_value_ignores_revenue fd rv1 rv2 sh td ce r1 r2).
Qed.
End Revenue.

(** C8: the revenue never reaches the result. Two runs whose providers
    answer the cash-flow, balance-sheet and overview queries alike, and
    whose income statements both carry a [totalRevenue] that reads as a
    float other than zero, end alike: same value or same exception, same
    lines printed. Two inputs that differ in the [totalRevenue] field
    alone are such runs. *)
Theorem revenue_is_unused `{Runtime} (net1 net2 : network)
    (symbol api_key : string) (inc1 inc2 rv1 rv2 : pyval) (r1 r2 : float) :
  (forall f, In f ["CASH_FLOW"; "BALANCE_SHEET"; "OVERVIEW"] ->
     net1 (query_url symbol f api_key) = net2 (query_url symbol f api_key)) ->
  outcome (get_alpha_vantage_data net1 symbol "INCOME_STATEMENT" api_key)
  = Ok inc1 ->
  outcome (get_alpha_vantage_data net2 symbol "INCOME_STATEMENT" api_key)
  = Ok inc2 ->
  latest_annual inc1 "totalRevenue" = Ok rv1 ->
  latest_annual inc2 "totalRevenue" = Ok rv2 ->
  py_float rv1 = Ok r1 -> py_float rv2 = Ok r2 ->
  (r1 =? 0)%float = false -> (r2 =? 0)%float = false ->
  calculate_dcf net1 symbol api_key = calculate_dcf net2 symbol api_key.
Proof.
  intros Hsame Hinc1 Hinc2 Hrv1 Hrv2 Hr1 Hr2 Hnz1 Hnz2.
  assert (Hget : forall net inc rv,
    outcome (get_alpha_vantage_data net symbol "INCOME_STATEMENT" api_key)
    = Ok inc ->
    latest_annual inc "totalRevenue" = Ok rv ->
    get_alpha_vantage_data net symbol "INCOME_STATEMENT" api_key =
    (Ok inc, [HttpGet (query_url symbol "INCOME_STATEMENT" api_key)])).
  { intros net inc rv Hinc Hrv.
    destruct (fetch_returned _ _ _ _ _ Hinc) as [->|[_ Hrun]];
      [discriminate Hrv|exact Hrun]. }
  unfold calculate_dcf, fetch_statements.
  rewrite (Hget net1 inc1 rv1 Hinc1 Hrv1), (Hget net2 inc2 rv2 Hinc2 Hrv2).
  rewrite !(fetch_depends_on_answer net1 net2)
    by (apply Hsame; cbn; tauto).
  rewrite !bind_ok. cbn [fst snd].
  destruct (get_alpha_vantage_data net2 symbol "CASH_FLOW" api_key)
    as [[cf|e] t2]; [|reflexivity].
  rewrite !bind_ok. cbn [fst snd].
  destruct (get_alpha_vantage_data net2 symbol "BALANCE_SHEET" api_key)
    as [[bal|e] t3]; [|reflexivity].
  rewrite !bind_ok. cbn [fst snd].
  destruct (get_alpha_vantage_data net2 symbol "OVERVIEW" api_key)
    as [[ov|e] t4]; [|reflexivity].
  rewrite !bind_ok. cbn [fst snd ret app]. rewrite !bind_ok.
  unfold all_retrieved.
  cbn [income_statement cash_flow_statement balance_sheet company_overview
       forallb].
  rewrite (latest_annual_truthy _ _ _ Hrv1), (latest_annual_truthy _ _ _ Hrv2).
  rewrite (value_statements_ignores_revenue inc1 inc2 cf bal ov rv1 rv2
             r1 r2 Hrv1 Hrv2 Hr1 Hr2 Hnz1 Hnz2).
  reflexivity.
Qed.

Lemma revenue_is_unused_witness :
  let net1 := Example.company "100" "1000" "50" "30" "100" None in
  let net2 := Example.company "100" "2500" "50" "30" "100" None in
  (forall f, In f ["CASH_FLOW"; "BALANCE_SHEET"; "OVERVIEW"] ->
     net1 (query_url Example.symbol f Example.api_key) =
     net2 (query_url Example.symbol f Example.api_key)) /\
  @calculate_dcf Reference.runtime net1 Example.symbol Example.api_key =
  @calculate_dcf Reference.runtime net2 Example.symbol Example.api_key.
Proof.
  intros net1 net2.
  assert (Hsame : forall f, In f ["CASH_FLOW"; "BALANCE_SHEET"; "OVERVIEW"] ->
            net1 (query_url Example.symbol f Example.api_key) =
            net2 (query_url Example.symbol f Example.api_key)).
  { intros f [<-|[<-|[<-|[]]]]; reflexivity. }
  split; [exact Hsame|].
  apply (@revenue_is_unused Reference.runtime net1 net2 Example.symbol
           Example.api_key (Example.income (PStr "1000"))
           (Example.income (PStr "2500")) (PStr "1000") (PStr "2500")
           1000%float 2500%float Hsame);
    vm_compute; reflexivity.
Defined.

(** *** Unparsable figures *)

Section Unparsable.
Context `{Runtime}.

(** A figure converted inside the [try] block is covered by it. *)
Lemma parse_failure_reported (net : network) (symbol api_key : string)
    (docs : statements) (e : exn) :
  outcome (fetch_statements net symbol api_key) = Ok docs ->
  all_retrieved docs = true ->
  parse_reports docs = Raise e -> parse_handled e = true ->
  calculate_dcf net symbol api_key =
  (Ok None,
   trace (fetch_statements net symbol api_key) ++ [Print (ErrorParsing e)]).
Proof.
  intros Hfetch Hall Hparse Hcatch.
  rewrite (calculate_dcf_retrieved _ _ _ _ _
             (fetch_statements_split _ _ _ _ Hfetch) Hall).
  now rewrite (value_statements_caught _ _ Hparse Hcatch).
Qed.

(** The cash flow is converted on line 55, after the [try] block: when
    it does not read as a number the [ValueError] is not caught. *)
Lemma unparsable_cash_flow_raises (net : network)
    (symbol api_key : string) (docs : statements) (s : snapshot) (e : exn) :
  outcome (fetch_statements net symbol api_key) = Ok docs ->
  all_retrieved docs = true ->
  parse_reports docs = Ok s ->
  py_float (fcf_data s) = Raise e ->
  outcome (calculate_dcf net symbol api_key) = Raise e.
Proof.
  intros Hfetch Hall Hparse Hfcf.
  rewrite (calculate_dcf_retrieved _ _ _ _ _
             (fetch_statements_split _ _ _ _ Hfetch) Hall).
  rewrite (value_statements_parsed _ _ Hparse).
  unfold intrinsic_value_per_share, dcf_locals. now rewrite Hfcf.
Qed.
End Unparsable.

(** C4: a [freeCashFlow] that is not a number is not handled. The
    provider sends the string [None] for a figure it does not have; with
    it in [freeCashFlow] (or in [totalRevenue]) the [ValueError] of line
    55 leaves [calculate_dcf] and [main], whereas the same string in
    [totalLiabilities], converted inside the [try] block, is reported and
    gives no result. *)
Theorem unparsable_cash_flow_escapes :
  outcome (@calculate_dcf Reference.runtime
             (Example.company "None" "1000" "50" "30" "100" None)
             Example.symbol Example.api_key) = Raise ValueError /\
  outcome (@main Reference.runtime Example.getenv
             (Example.company "None" "1000" "50" "30" "100" None))
  = Raise ValueError /\
  outcome (@calculate_dcf Reference.runtime
             (Example.company "100" "None" "50" "30" "100" None)
             Example.symbol Example.api_key) = Raise ValueError /\
  @calculate_dcf Reference.runtime
    (Example.company "100" "1000" "50" "None" "100" None)
    Example.symbol Example.api_key =
  (Ok None,
   trace (fetch_statements
            (Example.company "100" "1000" "50" "None" "100" None)
            Example.symbol Example.api_key)
   ++ [Print (ErrorParsing ValueError)]).
Proof. repeat split; vm_compute; reflexivity. Qed.

(** *** The verdict *)

Lemma SFcompare_swap (x y : spec_float) :
  SFcompare y x = option_map CompOpp (SFcompare x y).
Proof.
  destruct x as [sx|sx| |sx mx ex], y as [sy|sy| |sy my ey]; cbn;
    try reflexivity;
    try (destruct sx; reflexivity); try (destruct sy; reflexivity);
    try (destruct sx, sy; reflexivity).
  destruct sx, sy; try reflexivity;
    rewrite (Z.compare_antisym ex ey);
    destruct (ex ?= ey); cbn; try reflexivity;
    pose proof (Pos.compare_cont_antisym mx my Eq) as Hswap;
    cbn in Hswap; rewrite <- Hswap;
    now destruct (Pos.compare_cont Eq mx my).
Qed.

Lemma SFcompare_unordered (x y : spec_float) :
  SFcompare x y = None <-> x = S754_nan \/ y = S754_nan.
Proof.
  destruct x as [sx|sx| |sx mx ex], y as [sy|sy| |sy my ey]; cbn;
    split; try discriminate; try tauto;
    try (intros [|]; discriminate).
Qed.

Lemma SFcompare_self (x : spec_float) :
  SFeqb x x = negb match x with S754_nan => true | _ => false end.
Proof.
  unfold SFeqb.
  destruct x as [s|s| |s m e]; cbn; try reflexivity;
    try (destruct s; reflexivity).
  destruct s; rewrite Z.compare_refl, Pos.compare_cont_refl; reflexivity.
Qed.

Lemma is_nan_spec (x : float) :
  is_nan x = true <-> Prim2SF x = S754_nan.
Proof.
  unfold is_nan. rewrite FloatAxioms.eqb_spec, SFcompare_self.
  destruct (Prim2SF x); cbn; split; congruence.
Qed.

(** Of [v < p], [p < v], [v == p] and "unordered", exactly one holds. *)
Lemma float_order_cases (v p : float) :
  let lt := (v <? p)%float in
  let gt := (p <? v)%float in
  let eq := (v =? p)%float in
  let un := is_nan v || is_nan p in
  (lt = true /\ gt = false /\ eq = false /\ un = false) \/
  (lt = false /\ gt = true /\ eq = false /\ un = false) \/
  (lt = false /\ gt = false /\ eq = true /\ un = false) \/
  (lt = false /\ gt = false /\ eq = false /\ un = true).
Proof.
  cbn zeta. rewrite !FloatAxioms.ltb_spec, FloatAxioms.eqb_spec.
  unfold SFltb, SFeqb. rewrite (SFcompare_swap (Prim2SF v) (Prim2SF p)).
  destruct (SFcompare (Prim2SF v) (Prim2SF p)) as [[| |]|] eqn:Hcmp; cbn.
  - right; right; left. repeat split.
    apply orb_false_iff. split; apply not_true_is_false;
      rewrite is_nan_spec; intros Hnan;
      assert (SFcompare (Prim2SF v) (Prim2SF p) = None)
        by (apply SFcompare_unordered; tauto); congruence.
  - left. repeat split.
    apply orb_false_iff. split; apply not_true_is_false;
      rewrite is_nan_spec; intros Hnan;
      assert (SFcompare (Prim2SF v) (Prim2SF p) = None)
        by (apply SFcompare_unordered; tauto); congruence.
  - right; left. repeat split.
    apply orb_false_iff. split; apply not_true_is_false;
      rewrite is_nan_spec; intros Hnan;
      assert (SFcompare (Prim2SF v) (Prim2SF p) = None)
        by (apply SFcompare_unordered; tauto); congruence.
  - right; right; right. repeat split.
    apply SFcompare_unordered in Hcmp. apply orb_true_iff.
    rewrite !is_nan_spec. exact Hcmp.
Qed.

(** C3 (as amended): the verdict is "undervalued" exactly when [v > p],
    "overvalued" exactly when [v < p], and "fairly valued" in every other
    case: exactly when [v == p] or one of the two is not a number. *)
Theorem verdict_cases (v p : float) :
  (compare_to_price v p = Undervalued <-> (p <? v)%float = true) /\
  (compare_to_price v p = Overvalued <-> (v <? p)%float = true) /\
  (compare_to_price v p = FairlyValued <->
   (v =? p)%float = true \/ is_nan v = true \/ is_nan p = true).
Proof.
  unfold compare_to_price.
  destruct (float_order_cases v p)
    as [(-> & -> & -> & Hun)|[(-> & -> & -> & Hun)|
        [(-> & -> & -> & Hun)|(-> & -> & -> & Hun)]]];
    [apply orb_false_iff in Hun as [-> ->]..
    |apply orb_true_iff in Hun];
    repeat split; try discriminate; try tauto;
    try (intros [|[|]]; discriminate).
Qed.

(** C3 (as stated) fails when the price is not a number (the provider's
    price string reads as NaN): the verdict is "fairly valued" although
    [v == p] is false. *)
Lemma verdict_contract_fails_at_nan : ~ verdict_contract 1%float nan.
Proof.
  intros (_ & _ & Hfair).
  pose proof (proj1 Hfair eq_refl) as Heq. vm_compute in Heq.
  discriminate Heq.
Qed.

(** *** The gate of [main] *)

Lemma trace_bind_incl {A B} (m : M A) (k : A -> M B) (ev : event) :
  In ev (trace m) -> In ev (trace (bind m k)).
Proof.
  destruct m as [[a|e] t]; cbn; [|tauto].
  destruct (k a) as [r t']. cbn. intros Hin. apply in_or_app. now left.
Qed.

Lemma trace_bind_inv {A B} (m : M A) (k : A -> M B) (ev : event) :
  In ev (trace (bind m k)) ->
  In ev (trace m) \/ exists a, outcome m = Ok a /\ In ev (trace (k a)).
Proof.
  destruct m as [[a|e] t]; cbn; [|tauto].
  destruct (k a) as [r t'] eqn:Hk. cbn. intros Hin.
  apply in_app_or in Hin as [Hin|Hin]; [now left|right].
  exists a. rewrite Hk. auto.
Qed.

(** A fetch starts with its request and requests nothing else. *)
Lemma fetch_trace (net : network) (symbol function api_key : string) :
  exists t,
    trace (get_alpha_vantage_data net symbol function api_key) =
    HttpGet (query_url symbol function api_key) :: t /\
    forall u, ~ In (HttpGet u) t.
Proof.
  destruct (fetch_cases net symbol function api_key)
    as [Hc|[Hc|[Hc|[v Hc]]]].
  - rewrite (fetch_transport_failed _ _ _ _ Hc). eexists. split;
      [reflexivity|]. intros u [|[]]; discriminate.
  - rewrite (fetch_status_failed _ _ _ _ Hc). eexists. split;
      [reflexivity|]. intros u [|[]]; discriminate.
  - rewrite (fetch_undecodable _ _ _ _ Hc). eexists. split;
      [reflexivity|]. intros u [|[]]; discriminate.
  - rewrite (fetch_decoded _ _ _ _ _ Hc). cbn.
    destruct (py_contains "Error Message" v) as [[|]|e]; cbn.
    + destruct (py_getitem_str v "Error Message"); cbn;
        eexists; (split; [reflexivity|]).
      * intros u [|[]]; discriminate.
      * intros u [].
    + eexists. split; [reflexivity|]. intros u [].
    + eexists. split; [reflexivity|]. intros u [].
Qed.

Lemma quote_url_fresh (symbol api_key f : string) :
  In f statement_functions ->
  quote_url symbol api_key <> query_url symbol f api_key.
Proof.
  intros [<-|[<-|[<-|[<-|[]]]]]; unfold quote_url, query_url; cbn;
    discriminate.
Qed.

Section Gate.
Context `{Runtime}.

Lemma value_statements_prints (docs : statements) (u : string) :
  ~ In (HttpGet u) (trace (value_statements docs)).
Proof.
  unfold value_statements.
  destruct (parse_reports docs) as [s|e]; cbn.
  - destruct (intrinsic_value_per_share s); cbn; tauto.
  - destruct (parse_handled e); cbn; [|tauto]. intros [|[]]; discriminate.
Qed.

(** [calculate_dcf] requests the four statements and nothing else. *)
Lemma calculate_dcf_requests (net : network) (symbol api_key u : string) :
  In (HttpGet u) (trace (calculate_dcf net symbol api_key)) ->
  exists f, In f statement_functions /\ u = query_url symbol f api_key.
Proof.
  assert (Hget : forall B f (k : pyval -> M B),
    In f statement_functions ->
    (forall d, In (HttpGet u) (trace (k d)) ->
       exists f, In f statement_functions /\ u = query_url symbol f api_key) ->
    In (HttpGet u)
      (trace (bind (get_alpha_vantage_data net symbol f api_key) k)) ->
    exists f, In f statement_functions /\ u = query_url symbol f api_key).
  { intros B f k Hf Hk Hin.
    apply trace_bind_inv in Hin as [Hin|(d & _ & Hin)]; [|eauto].
    destruct (fetch_trace net symbol f api_key) as (t & Ht & Hprints).
    rewrite Ht in Hin. destruct Hin as [[= <-]|Hin]; [eauto|].
    now destruct (Hprints u). }
  unfold calculate_dcf, fetch_statements. intros Hin.
  apply trace_bind_inv in Hin as [Hin|(docs & _ & Hin)].
  - revert Hin. apply Hget; [cbn; tauto|]. intros d1.
    apply Hget; [cbn; tauto|]. intros d2.
    apply Hget; [cbn; tauto|]. intros d3.
    apply Hget; [cbn; tauto|]. intros d4 [].
  - destruct (negb (all_retrieved docs)).
    + cbn in Hin. destruct Hin as [|[]]; discriminate.
    + now destruct (value_statements_prints docs u).
Qed.

(** Lines 107-120 when the quote arrives with a price that reads as a
    float. *)
Lemma report_with_price (net : network) (symbol api_key : string)
    (v p : float) (d : gmap string pyval) (q price : pyval) :
  decoded net (quote_url symbol api_key) (PDict d) ->
  d !! "Error Message" = None ->
  d !! "Global Quote" = Some q ->
  py_getitem_str q "05. price" = Ok price ->
  py_float price = Ok p ->
  report net symbol api_key v =
  (Ok tt,
   [HttpGet (quote_url symbol api_key); Print (IntrinsicValueLine v);
    Print (CurrentPriceLine p); Print (Conclusion (compare_to_price v p))]).
Proof.
  intros Hdec Herr Hquote Hprice Hp. unfold report.
  rewrite (fetch_document _ _ _ _ _ Hdec Herr), bind_ok.
  assert (Htruthy : truthy (PDict d) = true).
  { cbn. rewrite bool_decide_false; [reflexivity|].
    intros ->. now rewrite lookup_empty in Hquote. }
  rewrite Htruthy. cbn [py_contains py_getitem_str].
  rewrite Hquote. cbn. rewrite Hprice. cbn. rewrite Hp. reflexivity.
Qed.

(** [main] after [calculate_dcf] has returned. *)
Lemma main_after_valuation (getenv : string -> option string)
    (net : network) (symbol api_key : string) (r : option float) :
  configured getenv symbol api_key ->
  outcome (calculate_dcf net symbol api_key) = Ok r ->
  let rest := match r with
              | None => ret tt
              | Some v =>
                  if truthy (PFloat v) then report net symbol api_key v
                  else ret tt
              end in
  main getenv net =
  (outcome rest,
   Print (Calculating symbol) ::
   trace (calculate_dcf net symbol api_key) ++ trace rest).
Proof.
  intros Hconf Hcalc rest. rewrite (main_configured _ _ _ _ Hconf).
  destruct (calculate_dcf net symbol api_key) as [res t]. cbn in Hcalc.
  subst res. unfold print, emit. rewrite !bind_ok. reflexivity.
Qed.
End Gate.

(** C10 (as amended): a valuation that returns exactly zero is treated as
    one that returned nothing: [main] stops after [calculate_dcf], the
    quote is not requested and nothing more is printed. For every other
    value, negative ones and NaN included, [main] requests the quote; when
    the quote arrives with a price that reads as a float it prints the
    value, the price and the verdict. *)
Theorem zero_value_is_no_result `{Runtime}
    (getenv : string -> option string) (net : network)
    (symbol api_key : string) (r : option float) :
  configured getenv symbol api_key ->
  outcome (calculate_dcf net symbol api_key) = Ok r ->
  (falsy r = true ->
   main getenv net =
   (Ok tt, Print (Calculating symbol) ::
           trace (calculate_dcf net symbol api_key)) /\
   ~ In (HttpGet (quote_url symbol api_key)) (trace (main getenv net))) /\
  (forall v, r = Some v -> (v =? 0)%float = false ->
   In (HttpGet (quote_url symbol api_key)) (trace (main getenv net)) /\
   forall d q price p,
     decoded net (quote_url symbol api_key) (PDict d) ->
     d !! "Error Message" = None ->
     d !! "Global Quote" = Some q ->
     py_getitem_str q "05. price" = Ok price ->
     py_float price = Ok p ->
     main getenv net =
     (Ok tt,
      Print (Calculating symbol) ::
      trace (calculate_dcf net symbol api_key) ++
      [HttpGet (quote_url symbol api_key); Print (IntrinsicValueLine v);
       Print (CurrentPriceLine p);
       Print (Conclusion (compare_to_price v p))])).
Proof.
  intros Hconf Hcalc.
  pose proof (main_after_valuation getenv net symbol api_key r Hconf Hcalc)
    as Hmain. cbn zeta in Hmain.
  split.
  - intros Hfalsy.
    assert (Hstop : main getenv net =
              (Ok tt, Print (Calculating symbol) ::
                      trace (calculate_dcf net symbol api_key))).
    { rewrite Hmain. destruct r as [v|]; cbn in Hfalsy |- *.
      - rewrite Hfalsy. cbn. now rewrite app_nil_r.
      - now rewrite app_nil_r. }
    split; [exact Hstop|]. rewrite Hstop. cbn.
    intros [Hin|Hin]; [discriminate|].
    apply calculate_dcf_requests in Hin as (f & Hf & Heq).
    exact (quote_url_fresh symbol api_key f Hf Heq).
  - intros v -> Hnz. cbn in Hmain. rewrite Hnz in Hmain. cbn in Hmain.
    split.
    + rewrite Hmain. cbn. right. apply in_or_app. right.
      destruct (fetch_trace net symbol "GLOBAL_QUOTE" api_key)
        as (t & Ht & _).
      unfold report. apply trace_bind_incl. rewrite Ht. now left.
    + intros d q price p Hdec Herr Hquote Hprice Hp.
      rewrite Hmain.
      now rewrite (report_with_price net symbol api_key v p d q price
                     Hdec Herr Hquote Hprice Hp).
Qed.

Lemma zero_value_is_no_result_witness :
  let worthless := Example.company "0" "1000" "0" "0" "1"
                     (Example.ok (Example.quote (PStr "12"))) in
  let priced := Example.company "100" "1000" "50" "30" "100"
                  (Example.ok (Example.quote (PStr "12"))) in
  configured Example.getenv Example.symbol Example.api_key /\
  outcome (@calculate_dcf Reference.runtime worthless Example.symbol
             Example.api_key) = Ok (Some 0%float) /\
  @main Reference.runtime Example.getenv worthless =
  (Ok tt, Print (Calculating Example.symbol) ::
          trace (@calculate_dcf Reference.runtime worthless Example.symbol
                   Example.api_key)) /\
  outcome (@calculate_dcf Reference.runtime priced Example.symbol
             Example.api_key) = Ok (Some 17.756249660647292%float) /\
  @main Reference.runtime Example.getenv priced =
  (Ok tt,
   Print (Calculating Example.symbol) ::
   trace (@calculate_dcf Reference.runtime priced Example.symbol
            Example.api_key) ++
   [HttpGet (quote_url Example.symbol Example.api_key);
    Print (IntrinsicValueLine 17.756249660647292%float);
    Print (CurrentPriceLine 12%float);
    Print (Conclusion Undervalued)]).
Proof.
  intros worthless priced.
  assert (Hzero : outcome (@calculate_dcf Reference.runtime worthless
                             Example.symbol Example.api_key)
                  = Ok (Some 0%float)) by (vm_compute; reflexivity).
  assert (Hvalue : outcome (@calculate_dcf Reference.runtime priced
                              Example.symbol Example.api_key)
                   = Ok (Some 17.756249660647292%float))
    by (vm_compute; reflexivity).
  split; [exact configured_example|].
  split; [exact Hzero|].
  split.
  - destruct (@zero_value_is_no_result Reference.runtime Example.getenv
                worthless Example.symbol Example.api_key (Some 0%float)
                configured_example Hzero) as [Hstop _].
    destruct (Hstop eq_refl) as [Hmain _]. exact Hmain.
  - split; [exact Hvalue|].
    destruct (@zero_value_is_no_result Reference.runtime Example.getenv
                priced Example.symbol Example.api_key
                (Some 17.756249660647292%float) configured_example Hvalue)
      as [_ Hreport].
    destruct (Hreport _ eq_refl eq_refl) as [_ Hprinted].
    assert (Hdecoded :
      decoded priced (quote_url Example.symbol Example.api_key)
        (Example.quote (PStr "12"))).
    { eexists. split; [vm_compute; reflexivity|].
      split; [cbn; lia|reflexivity]. }
    assert (Hprice : @py_float Reference.runtime (PStr "12") = Ok 12%float)
      by (vm_compute; reflexivity).
    exact (Hprinted _ (PDict {[ "05. price" := PStr "12" ]}) (PStr "12")
             12%float Hdecoded eq_refl eq_refl eq_refl Hprice).
Defined.

(** C10 (as stated) fails when the quote cannot be fetched: the valuation
    returns 17.756..., which is not zero, [main] requests the quote, the
    transport fails, and no verdict is printed. *)
Lemma gate_contract_fails_without_quote :
  ~ @gate_contract Reference.runtime Example.getenv Example.worked
      Example.symbol Example.api_key.
Proof.
  intros Hgate.
  destruct (Hgate 17.756249660647292%float) as [_ Hreport];
    [vm_compute; reflexivity|].
  destruct (Hreport eq_refl) as [_ [c Hin]].
  vm_compute in Hin.
  repeat (destruct Hin as [Hin|Hin]; [discriminate Hin|]).
  exact Hin.
Qed.

(** *** The worked example *)

Section Worked.
Context `{Runtime}.

Lemma pow_faithful_regular : pow_faithful -> pow_regular.
Proof.
  intros Hpow i Hin. pose proof (Hpow i Hin) as Hulp.
  vm_compute in Hin.
  destruct Hin as [<-|[<-|[<-|[<-|[<-|[]]]]]];
    destruct Hulp as [-> | [-> | ->]]; split; vm_compute; reflexivity.
Qed.

Lemma worked_example_parses :
  reads_worked_figures ->
  parse_reports (Example.documents "100" "1000" "50" "30" "100") =
  Ok Example.worked_snapshot.
Proof.
  intros (H100 & H1000 & H50 & H30 & Hshares).
  unfold parse_reports, Example.documents.
  cbn [income_statement cash_flow_statement balance_sheet company_overview].
  replace (latest_annual (Example.cash_flow (PStr "100")) "freeCashFlow")
    with (Ok (PStr "100")) by (vm_compute; reflexivity).
  replace (latest_annual (Example.income (PStr "1000")) "totalRevenue")
    with (Ok (PStr "1000")) by (vm_compute; reflexivity).
  replace (py_getitem_str (Example.overview (PStr "100")) "SharesOutstanding")
    with (Ok (PStr "100")) by (vm_compute; reflexivity).
  replace (latest_annual (Example.balance (PStr "30") (PStr "50"))
             "totalLiabilities")
    with (Ok (PStr "30")) by (vm_compute; reflexivity).
  replace (latest_annual (Example.balance (PStr "30") (PStr "50"))
             "cashAndCashEquivalents")
    with (Ok (PStr "50")) by (vm_compute; reflexivity).
  cbn [rbind py_int py_float]. rewrite Hshares, H30, H50. reflexivity.
Qed.
End Worked.

(** C2 (as amended): for FCF = 100, revenue = 1000, cash = 50,
    liabilities = 30 and 100 shares, with a [pow] accurate to one unit in
    the last place, the projected cash flows are 105, 110.25, 115.7625,
    121.550625 and 127.62815625 (the last two up to rounding), the present
    value of the forecast is 447.6, the terminal value 2012.67 and its
    present value 1307.9 as the specification has them, the enterprise
    value 1755.6, the equity value 1775.6 and the intrinsic value per
    share 17.76, each to four significant figures. *)
Theorem worked_example `{Runtime} :
  reads_worked_figures -> pow_faithful ->
  exists l v,
    parse_reports (Example.documents "100" "1000" "50" "30" "100") =
    Ok Example.worked_snapshot /\
    dcf_locals Example.worked_snapshot = Ok l /\
    calculate_dcf Example.worked Example.symbol Example.api_key =
    (Ok (Some v),
     map (fun f => HttpGet (query_url Example.symbol f Example.api_key))
       statement_functions) /\
    projected_fcf l =
    [105; 110.25; 115.7625; 121.55062500000001; 127.62815625000002]%float /\
    all_agree4 (projected_fcf l)
      [105; 110.25; 115.7625; 121.550625; 127.62815625]%Q /\
    agree4 (present_value_fcf l) 447.6 = true /\
    agree4 (terminal_value l) 2012.67 = true /\
    agree4 (present_value_tv l) 1307.9 = true /\
    agree4 (enterprise_value l) 1755.6 = true /\
    agree4 (equity_value l) 1775.6 = true /\
    agree4 v 17.76 = true.
Proof.
  intros Hreads Hpow.
  pose proof (pow_faithful_regular Hpow) as Hreg.
  pose proof (worked_example_parses Hreads) as Hparse.
  destruct Hreads as (H100 & H1000 & _).
  assert (Hfcf : py_float (fcf_data Example.worked_snapshot) = Ok 100%float)
    by (cbn; now rewrite H100).
  assert (Hrev : py_float (revenue_data Example.worked_snapshot)
                 = Ok 1000%float) by (cbn; now rewrite H1000).
  pose proof (dcf_locals_formula Example.worked_snapshot 100 1000 Hreg
                Hfcf Hrev eq_refl) as Hlocals.
  pose proof (calculate_dcf_value Example.worked Example.symbol
                Example.api_key
                (Example.documents "100" "1000" "50" "30" "100")
                Example.worked_snapshot 100 1000 100 Hreg
                eq_refl eq_refl Hparse Hfcf Hrev eq_refl eq_refl eq_refl)
    as Hcalc.
  eexists. eexists.
  split; [exact Hparse|]. split; [exact Hlocals|]. split; [exact Hcalc|].
  cbn [projected_fcf present_value_fcf terminal_value present_value_tv
       enterprise_value equity_value Example.worked_snapshot
       cash_and_equivalents total_debt].
  split; [vm_compute; reflexivity|].
  split; [repeat constructor; vm_compute; reflexivity|].
  assert (Hfactor : forall i, In i [1; 2; 3; 4; 5] ->
            within_one_ulp (discount_factor i)
              (pow_rounded (1 + discount_rate)%float i))
    by exact Hpow.
  pose proof (Hfactor 1 ltac:(cbn; tauto)) as H1.
  pose proof (Hfactor 2 ltac:(cbn; tauto)) as H2.
  pose proof (Hfactor 3 ltac:(cbn; tauto)) as H3.
  pose proof (Hfactor 4 ltac:(cbn; tauto)) as H4.
  pose proof (Hfactor 5 ltac:(cbn; tauto)) as H5.
  clear Hfactor Hcalc Hlocals Hparse Hreg Hpow.
  unfold dcf_formula, pv_forecast, pv_terminal, terminal, discounted.
  cbn [fold_left].
  change (Z.of_nat 1) with 1. change (Z.of_nat 2) with 2.
  change (Z.of_nat 3) with 3. change (Z.of_nat 4) with 4.
  change (Z.of_nat 5) with 5.
  destruct H1 as [-> | [-> | ->]], H2 as [-> | [-> | ->]], H3 as [-> | [-> | ->]],
           H4 as [-> | [-> | ->]], H5 as [-> | [-> | ->]];
    vm_compute; repeat split.
Qed.

Lemma reference_reads_worked_figures :
  @reads_worked_figures Reference.runtime.
Proof. repeat split; vm_compute; reflexivity. Qed.

Lemma worked_example_witness :
  @reads_worked_figures Reference.runtime /\
  @pow_faithful Reference.runtime /\
  exists v,
    outcome (@calculate_dcf Reference.runtime Example.worked Example.symbol
               Example.api_key) = Ok (Some v) /\
    agree4 v 17.76 = true.
Proof.
  split; [exact reference_reads_worked_figures|].
  split; [exact reference_pow_faithful|].
  destruct (@worked_example Reference.runtime
              reference_reads_worked_figures reference_pow_faithful)
    as (l & v & _ & _ & Hcalc & _ & _ & _ & _ & _ & _ & _ & Hv).
  exists v. split; [|exact Hv].
  unfold outcome. now rewrite Hcalc.
Defined.

(** C2 (as stated) fails: on the worked example the present value of the
    forecast cash flows is 447.57..., not 473.3, and the values that
    depend on it (enterprise value, equity value, value per share) are
    1755.62..., 1775.62... and 17.756..., not 1781.2, 1801.2 and 18.01. *)
Lemma worked_example_contract_fails :
  ~ @worked_example_contract Reference.runtime.
Proof.
  intros (l & v & Hl & _ & _ & Hpv & _).
  vm_compute in Hl. injection Hl as <-.
  vm_compute in Hpv. discriminate Hpv.
Qed.

(** ** Further properties of the script *)

(** *** Requests and printed lines *)

Lemma requests_app (t1 t2 : list event) :
  requests (t1 ++ t2) = requests t1 ++ requests t2.
Proof.
  induction t1 as [|[u|l] t1 IH]; cbn; [reflexivity| |exact IH].
  now rewrite IH.
Qed.

Lemma printed_app (t1 t2 : list event) :
  printed (t1 ++ t2) = printed t1 ++ printed t2.
Proof.
  induction t1 as [|[u|l] t1 IH]; cbn; [reflexivity|exact IH|].
  now rewrite IH.
Qed.

Lemma requests_none (t : list event) :
  (forall u, ~ In (HttpGet u) t) -> requests t = [].
Proof.
  induction t as [|[u|l] t IH]; cbn; intros Hnone; [reflexivity| |].
  - destruct (Hnone u). now left.
  - apply IH. intros u Hin. apply (Hnone u). now right.
Qed.

(** The payload decides alone what a fetch with a good answer does. *)
Lemma fetch_payload_cases (net : network)
    (symbol function api_key : string) (v : pyval) :
  let url := query_url symbol function api_key in
  let run := get_alpha_vantage_data net symbol function api_key in
  decoded net url v ->
  (py_contains "Error Message" v = Ok false /\ run = (Ok v, [HttpGet url])) \/
  (is_object v = false /\ run = (Raise TypeError, [HttpGet url])) \/
  (exists d m, v = PDict d /\ d !! "Error Message" = Some m /\
     run = (Ok PNone, [HttpGet url; Print (ApiError symbol function m)])).
Proof.
  intros url run Hdec. unfold run, url.
  rewrite (fetch_decoded _ _ _ _ _ Hdec).
  destruct v as [| | | | |l|d]; cbn.
  1-4: right; left; split; reflexivity.
  - destruct (is_substring "Error Message" s); cbn;
      [right; left|left]; split; reflexivity.
  - destruct (existsb _ l); cbn; [right; left|left]; split; reflexivity.
  - destruct (d !! "Error Message") as [m|] eqn:Hm; cbn.
    + right; right. exists d, m.
      split; [reflexivity|]. split; [exact Hm|reflexivity].
    + left. split; reflexivity.
Qed.

Lemma fetch_requests_printed (net : network)
    (symbol function api_key : string) :
  requests (trace (get_alpha_vantage_data net symbol function api_key)) =
  [query_url symbol function api_key] /\
  (length (printed (trace (get_alpha_vantage_data net symbol function
                             api_key))) <= 1)%nat.
Proof.
  destruct (fetch_cases net symbol function api_key)
    as [Hc|[Hc|[Hc|[v Hc]]]].
  - rewrite (fetch_transport_failed _ _ _ _ Hc). cbn. split; [reflexivity|lia].
  - rewrite (fetch_status_failed _ _ _ _ Hc). cbn. split; [reflexivity|lia].
  - rewrite (fetch_undecodable _ _ _ _ Hc). cbn. split; [reflexivity|lia].
  - destruct (fetch_payload_cases net symbol function api_key v Hc)
      as [[_ ->]|[[_ ->]|(d & m & _ & _ & ->)]];
      cbn; split; (reflexivity || lia).
Qed.

(** X1: a fetch sends exactly one request, to the URL built from its
    arguments, whatever the answer is (there is no retry), and prints at
    most one line. *)
Theorem fetcher_single_request (net : network)
    (symbol function api_key : string) :
  let run := get_alpha_vantage_data net symbol function api_key in
  requests (trace run) = [query_url symbol function api_key] /\
  (length (printed (trace run)) <= 1)%nat.
Proof.
  intros run. exact (fetch_requests_printed net symbol function api_key).
Qed.

Lemma fetch_raises (net : network) (symbol function api_key : string)
    (e : exn) :
  outcome (get_alpha_vantage_data net symbol function api_key) = Raise e ->
  e = TypeError /\
  exists v, decoded net (query_url symbol function api_key) v /\
            is_object v = false.
Proof.
  destruct (fetch_cases net symbol function api_key)
    as [Hc|[Hc|[Hc|[v Hc]]]].
  - now rewrite (fetch_transport_failed _ _ _ _ Hc).
  - now rewrite (fetch_status_failed _ _ _ _ Hc).
  - now rewrite (fetch_undecodable _ _ _ _ Hc).
  - destruct (fetch_payload_cases net symbol function api_key v Hc)
      as [[_ ->]|[[Hobj ->]|(d & m & _ & _ & ->)]]; cbn;
      try discriminate.
    intros [= <-]. eauto.
Qed.

(** X2: the only exception that leaves the fetcher is [TypeError], and
    only when the body decodes to something that is not a JSON object;
    a request failure never does. A body that decodes to null, a boolean
    or a number always ends this way. *)
Theorem fetcher_only_type_error (net : network)
    (symbol function api_key : string) :
  let url := query_url symbol function api_key in
  let run := get_alpha_vantage_data net symbol function api_key in
  (forall e, outcome run = Raise e ->
     e = TypeError /\ exists v, decoded net url v /\ is_object v = false) /\
  (forall v, decoded net url v -> is_scalar v = true ->
     run = (Raise TypeError, [HttpGet url])).
Proof.
  intros url run. split.
  - intros e. apply fetch_raises.
  - intros v Hdec Hscalar.
    destruct (fetch_payload_cases net symbol function api_key v Hdec)
      as [[Hin _]|[[_ Hrun]|(d & m & -> & _)]].
    + destruct v; discriminate.
    + exact Hrun.
    + discriminate Hscalar.
Qed.

Lemma fetcher_only_type_error_witness :
  let net : network :=
    fun _ => Some {| status_code := 200; json_body := Some (PInt 5) |} in
  let url := query_url Example.symbol "OVERVIEW" Example.api_key in
  decoded net url (PInt 5) /\
  get_alpha_vantage_data net Example.symbol "OVERVIEW" Example.api_key =
  (Raise TypeError, [HttpGet url]).
Proof.
  intros net url.
  assert (Hdec : decoded net url (PInt 5)).
  { eexists. split; [reflexivity|]. split; [cbn; lia|reflexivity]. }
  split; [exact Hdec|].
  exact (proj2 (fetcher_only_type_error net Example.symbol "OVERVIEW"
                  Example.api_key) (PInt 5) Hdec eq_refl).
Defined.

(** *** The four statement requests *)

Lemma trace_bind_raise {A B} (m : M A) (k : A -> M B) (e : exn) :
  outcome m = Raise e -> trace (bind m k) = trace m.
Proof. destruct m as [[a|e'] t]; cbn; [discriminate|reflexivity]. Qed.

Lemma outcome_cases {A} (m : M A) :
  (exists a, outcome m = Ok a) \/ (exists e, outcome m = Raise e).
Proof. destruct m as [[a|e] t]; cbn; eauto. Qed.

Section Requests.
Context `{Runtime}.

Lemma value_statements_requests (docs : statements) :
  requests (trace (value_statements docs)) = [].
Proof.
  apply requests_none. intros u. apply value_statements_prints.
Qed.

(** The requests of a fetch followed by a continuation [k]: its URL, then
    what [k] requests when the fetch returns. *)
Lemma requests_fetch_bind {B} (net : network)
    (symbol function api_key : string) (k : pyval -> M B) :
  requests (trace (bind (get_alpha_vantage_data net symbol function api_key)
                     k)) =
  query_url symbol function api_key ::
  match outcome (get_alpha_vantage_data net symbol function api_key) with
  | Ok d => requests (trace (k d))
  | Raise _ => []
  end.
Proof.
  destruct (fetch_requests_printed net symbol function api_key) as [Hreq _].
  destruct (outcome_cases
              (get_alpha_vantage_data net symbol function api_key))
    as [[d Hd]|[e He]].
  - rewrite (trace_bind_ok _ _ _ Hd), requests_app, Hreq, Hd. reflexivity.
  - rewrite (trace_bind_raise _ _ _ He), Hreq, He. reflexivity.
Qed.

Lemma calculate_dcf_requests_prefix (net : network)
    (symbol api_key : string) :
  exists n,
    requests (trace (calculate_dcf net symbol api_key)) =
    firstn n (map (fun f => query_url symbol f api_key) statement_functions)
    /\ (outcome (fetch_statements net symbol api_key) <> Raise TypeError ->
        n = 4%nat).
Proof.
  unfold calculate_dcf, fetch_statements.
  destruct (get_alpha_vantage_data net symbol "INCOME_STATEMENT" api_key)
    as [[d1|e1] t1] eqn:E1.
  2:{ exists 1%nat. split.
      - pose proof (requests_fetch_bind net symbol "INCOME_STATEMENT" api_key
                      (fun _ => @ret unit tt)) as Hreq.
        rewrite E1 in Hreq. cbn in Hreq |- *. exact Hreq.
      - cbn. intros Hne.
        assert (He : outcome
                  (get_alpha_vantage_data net symbol "INCOME_STATEMENT"
                     api_key) = Raise e1) by now rewrite E1.
        apply fetch_raises in He as [-> _]. congruence. }
  destruct (get_alpha_vantage_data net symbol "CASH_FLOW" api_key)
    as [[d2|e2] t2] eqn:E2.
  2:{ exists 2%nat. split.
      - pose proof (requests_fetch_bind net symbol "INCOME_STATEMENT" api_key
                      (fun _ => @ret unit tt)) as Hreq1.
        pose proof (requests_fetch_bind net symbol "CASH_FLOW" api_key
                      (fun _ => @ret unit tt)) as Hreq2.
        rewrite E1 in Hreq1. rewrite E2 in Hreq2.
        cbn in Hreq1, Hreq2 |- *.
        rewrite app_nil_r in Hreq1.
        now rewrite requests_app, Hreq1, Hreq2.
      - cbn. intros Hne.
        assert (He : outcome
                  (get_alpha_vantage_data net symbol "CASH_FLOW" api_key)
                = Raise e2) by now rewrite E2.
        apply fetch_raises in He as [-> _]. congruence. }
  destruct (get_alpha_vantage_data net symbol "BALANCE_SHEET" api_key)
    as [[d3|e3] t3] eqn:E3.
  2:{ exists 3%nat. split.
      - pose proof (requests_fetch_bind net symbol "INCOME_STATEMENT" api_key
                      (fun _ => @ret unit tt)) as Hreq1.
        pose proof (requests_fetch_bind net symbol "CASH_FLOW" api_key
                      (fun _ => @ret unit tt)) as Hreq2.
        pose proof (requests_fetch_bind net symbol "BALANCE_SHEET" api_key
                      (fun _ => @ret unit tt)) as Hreq3.
        rewrite E1 in Hreq1. rewrite E2 in Hreq2. rewrite E3 in Hreq3.
        cbn in Hreq1, Hreq2, Hreq3 |- *.
        rewrite app_nil_r in Hreq1, Hreq2.
        now rewrite !requests_app, Hreq1, Hreq2, Hreq3.
      - cbn. intros Hne.
        assert (He : outcome
                  (get_alpha_vantage_data net symbol "BALANCE_SHEET" api_key)
                = Raise e3) by now rewrite E3.
        apply fetch_raises in He as [-> _]. congruence. }
  pose proof (requests_fetch_bind net symbol "INCOME_STATEMENT" api_key
                (fun _ => @ret unit tt)) as Hreq1.
  pose proof (requests_fetch_bind net symbol "CASH_FLOW" api_key
                (fun _ => @ret unit tt)) as Hreq2.
  pose proof (requests_fetch_bind net symbol "BALANCE_SHEET" api_key
                (fun _ => @ret unit tt)) as Hreq3.
  pose proof (requests_fetch_bind net symbol "OVERVIEW" api_key
                (fun _ => @ret unit tt)) as Hreq4.
  rewrite E1 in Hreq1. rewrite E2 in Hreq2. rewrite E3 in Hreq3.
  cbn in Hreq1, Hreq2, Hreq3. rewrite app_nil_r in Hreq1, Hreq2, Hreq3.
  exists 4%nat. split; [|reflexivity].
  destruct (get_alpha_vantage_data net symbol "OVERVIEW" api_key)
    as [[d4|e4] t4] eqn:E4; cbn in Hreq4 |- *.
  - rewrite app_nil_r in Hreq4.
    match goal with
    | |- context [if ?c then _ else _] => destruct c
    end.
    + cbn. rewrite !requests_app, Hreq1, Hreq2, Hreq3, Hreq4. reflexivity.
    + match goal with
      | |- context [value_statements ?d] =>
          pose proof (value_statements_requests d) as Hvalue;
          destruct (value_statements d) as [r tv]
      end.
      cbn in Hvalue |- *.
      rewrite !requests_app, Hreq1, Hreq2, Hreq3, Hreq4, Hvalue.
      reflexivity.
  - rewrite !requests_app, Hreq1, Hreq2, Hreq3, Hreq4. reflexivity.
Qed.
End Requests.

(** X3: [calculate_dcf] requests the income statement, the cash flow, the
    balance sheet and the overview, in this order and nothing else; a
    fetch that fails does not stop the later ones (all four are requested
    unless a fetch raises [TypeError]). *)
Theorem statement_requests_in_order `{Runtime} (net : network)
    (symbol api_key : string) :
  exists n,
    requests (trace (calculate_dcf net symbol api_key)) =
    firstn n (map (fun f => query_url symbol f api_key) statement_functions)
    /\ (outcome (fetch_statements net symbol api_key) <> Raise TypeError ->
        n = 4%nat).
Proof. apply calculate_dcf_requests_prefix. Qed.

Lemma statement_requests_in_order_witness :
  let net : network := fun _ => None in
  outcome (fetch_statements net Example.symbol Example.api_key)
  <> Raise TypeError /\
  requests (trace (@calculate_dcf Reference.runtime net Example.symbol
                     Example.api_key)) =
  map (fun f => query_url Example.symbol f Example.api_key)
    statement_functions.
Proof.
  intros net.
  assert (Hfetch : outcome (fetch_statements net Example.symbol
                              Example.api_key) <> Raise TypeError)
    by (vm_compute; discriminate).
  split; [exact Hfetch|].
  destruct (@statement_requests_in_order Reference.runtime net
              Example.symbol Example.api_key) as (n & Hreq & Hn).
  rewrite Hreq, (Hn Hfetch). reflexivity.
Defined.

(** *** Answers that are not documents *)

Section NotRetrieved.
Context `{Runtime}.

Lemma falsy_statement_stops (net : network) (symbol api_key : string) :
  (exists f d, In f statement_functions /\
     outcome (get_alpha_vantage_data net symbol f api_key) = Ok d /\
     truthy d = false) ->
  calculate_dcf net symbol api_key = stop_after_fetch net symbol api_key.
Proof.
  intros (f & d & Hin & Hd & Hfalsy).
  unfold calculate_dcf, stop_after_fetch, fetch_statements, all_retrieved.
  destruct (get_alpha_vantage_data net symbol "INCOME_STATEMENT" api_key)
    as [[d1|e1] t1] eqn:E1; [|reflexivity].
  destruct (get_alpha_vantage_data net symbol "CASH_FLOW" api_key)
    as [[d2|e2] t2] eqn:E2; [|reflexivity].
  destruct (get_alpha_vantage_data net symbol "BALANCE_SHEET" api_key)
    as [[d3|e3] t3] eqn:E3; [|reflexivity].
  destruct (get_alpha_vantage_data net symbol "OVERVIEW" api_key)
    as [[d4|e4] t4] eqn:E4; [|reflexivity].
  assert (Hfalse : forallb truthy [d1; d2; d3; d4] = false).
  { destruct Hin as [<-|[<-|[<-|[<-|[]]]]];
      [rewrite E1 in Hd|rewrite E2 in Hd|rewrite E3 in Hd|rewrite E4 in Hd];
      injection Hd as ->; cbn; rewrite Hfalsy;
      rewrite ?andb_false_r; reflexivity. }
  cbn -[forallb]. rewrite Hfalse. reflexivity.
Qed.

Lemma stop_after_fetch_no_value (net : network) (symbol api_key : string)
    (v : float) :
  outcome (stop_after_fetch net symbol api_key) <> Ok (Some v).
Proof.
  unfold stop_after_fetch.
  destruct (fetch_statements net symbol api_key) as [[docs|e] t];
    cbn; congruence.
Qed.
End NotRetrieved.

(** X4: a statement answered with an empty JSON object (what the provider
    sends for a symbol it does not know), an empty list or an empty string
    goes through the fetcher, which prints nothing, and is then taken as
    not retrieved: the run is the four fetches, the failure message and
    [return None], and nothing is parsed. *)
Theorem empty_answer_not_retrieved `{Runtime} (net : network)
    (symbol api_key f : string) (v : pyval) :
  In f statement_functions ->
  decoded net (query_url symbol f api_key) v ->
  truthy v = false -> is_scalar v = false ->
  get_alpha_vantage_data net symbol f api_key =
  (Ok v, [HttpGet (query_url symbol f api_key)]) /\
  calculate_dcf net symbol api_key = stop_after_fetch net symbol api_key /\
  forall x, outcome (calculate_dcf net symbol api_key) <> Ok (Some x).
Proof.
  intros Hin Hdec Hfalsy Hscalar.
  assert (Hrun : get_alpha_vantage_data net symbol f api_key =
                 (Ok v, [HttpGet (query_url symbol f api_key)])).
  { destruct (fetch_payload_cases net symbol f api_key v Hdec)
      as [[_ Hrun]|[[Hobj Hrun]|(d & m & -> & Hm & _)]].
    - exact Hrun.
    - destruct v as [| | | |s|l|d]; try discriminate.
      + destruct s; [|discriminate Hfalsy].
        now rewrite (fetch_decoded _ _ _ _ _ Hdec).
      + destruct l; [|discriminate Hfalsy].
        now rewrite (fetch_decoded _ _ _ _ _ Hdec).
    - cbn in Hfalsy. apply negb_false_iff, bool_decide_eq_true in Hfalsy.
      subst d. now rewrite lookup_empty in Hm. }
  split; [exact Hrun|].
  assert (Hstop : calculate_dcf net symbol api_key =
                  stop_after_fetch net symbol api_key).
  { apply falsy_statement_stops. exists f, v.
    split; [exact Hin|]. split; [now rewrite Hrun|exact Hfalsy]. }
  split; [exact Hstop|].
  intros x. rewrite Hstop. apply stop_after_fetch_no_value.
Qed.

Lemma empty_answer_not_retrieved_witness :
  let net := Example.provider
               (Example.ok (Example.income (PStr "1000")))
               (Example.ok (Example.cash_flow (PStr "100")))
               (Example.ok (PDict ∅))
               (Example.ok (Example.overview (PStr "100"))) None in
  decoded net (query_url Example.symbol "BALANCE_SHEET" Example.api_key)
    (PDict ∅) /\
  @calculate_dcf Reference.runtime net Example.symbol Example.api_key =
  stop_after_fetch net Example.symbol Example.api_key.
Proof.
  intros net.
  assert (Hdec : decoded net
            (query_url Example.symbol "BALANCE_SHEET" Example.api_key)
            (PDict ∅)).
  { eexists. split; [vm_compute; reflexivity|].
    split; [cbn; lia|reflexivity]. }
  split; [exact Hdec|].
  assert (Hin : In "BALANCE_SHEET" statement_functions) by (cbn; tauto).
  exact (proj1 (proj2 (@empty_answer_not_retrieved Reference.runtime net
                         Example.symbol Example.api_key "BALANCE_SHEET"
                         (PDict ∅) Hin Hdec eq_refl eq_refl))).
Defined.

(** *** Documents without the expected fields *)

Lemma latest_annual_shaped (doc : pyval) (field : string) :
  report_document doc ->
  (exists s, latest_annual doc field = Ok (PStr s)) \/
  latest_annual doc field = Raise KeyError \/
  latest_annual doc field = Raise IndexError.
Proof.
  intros (d & -> & Hshape). unfold latest_annual. cbn [py_getitem_str].
  destruct (d !! "annualReports") as [r|] eqn:Hr;
    [|right; left; reflexivity].
  destruct (Hshape r eq_refl) as (l & -> & Hl). cbn [rbind].
  destruct l as [|x l]; [right; right; reflexivity|].
  apply Forall_cons_iff in Hl as [(f & -> & Hf) _].
  change (py_getitem_int (PList (PDict f :: l)) 0) with (Ok (PDict f)).
  cbn [rbind py_getitem_str].
  destruct (f !! field) as [v|] eqn:Hv; [|right; left; reflexivity].
  destruct (Hf field v Hv) as [s ->]. left. eauto.
Qed.

Section Shapes.
Context `{Runtime}.

Lemma parse_reports_shaped (docs : statements) :
  provider_shaped docs ->
  (exists s, parse_reports docs = Ok s) \/
  (exists e, parse_reports docs = Raise e /\ parse_handled e = true).
Proof.
  intros (Hinc & Hcf & Hbal & (o & Hov & Hfields)).
  unfold parse_reports. rewrite Hov.
  destruct (latest_annual_shaped _ "freeCashFlow" Hcf)
    as [[s1 ->]|[->| ->]]; [|right; eexists; split; reflexivity..].
  destruct (latest_annual_shaped _ "totalRevenue" Hinc)
    as [[s2 ->]|[->| ->]]; [|right; eexists; split; reflexivity..].
  cbn [rbind py_getitem_str].
  destruct (o !! "SharesOutstanding") as [v|] eqn:Hv;
    [|right; eexists; split; reflexivity].
  destruct (Hfields _ _ Hv) as [s3 ->]. cbn [rbind py_int].
  destruct (str_to_int s3); [|right; eexists; split; reflexivity].
  cbn [rbind].
  destruct (latest_annual_shaped _ "totalLiabilities" Hbal)
    as [[s4 ->]|[->| ->]]; [|right; eexists; split; reflexivity..].
  cbn [rbind py_float].
  destruct (str_to_float s4); [|right; eexists; split; reflexivity].
  cbn [rbind].
  destruct (latest_annual_shaped _ "cashAndCashEquivalents" Hbal)
    as [[s5 ->]|[->| ->]]; [|right; eexists; split; reflexivity..].
  cbn [rbind py_float].
  destruct (str_to_float s5); [|right; eexists; split; reflexivity].
  left. eauto.
Qed.
End Shapes.

(** X5: with documents of the shape the provider sends (objects whose
    [annualReports] is a list of objects with string fields), nothing
    escapes the [try] block: either every figure is read, or a missing
    key, an empty report list or a non-numeric string is reported and
    [calculate_dcf] returns [None] after one diagnostic line. *)
Theorem shaped_documents_parse_or_report `{Runtime} (net : network)
    (symbol api_key : string) (docs : statements) :
  outcome (fetch_statements net symbol api_key) = Ok docs ->
  all_retrieved docs = true ->
  provider_shaped docs ->
  (exists s, parse_reports docs = Ok s) \/
  (exists e, parse_reports docs = Raise e /\ parse_handled e = true /\
     calculate_dcf net symbol api_key =
     (Ok None,
      trace (fetch_statements net symbol api_key)
      ++ [Print (ErrorParsing e)])).
Proof.
  intros Hfetch Hall Hshape.
  destruct (parse_reports_shaped docs Hshape) as [Hok|(e & Hraise & Hcatch)];
    [now left|right].
  exists e. split; [exact Hraise|]. split; [exact Hcatch|].
  exact (parse_failure_reported net symbol api_key docs e Hfetch Hall
           Hraise Hcatch).
Qed.

Lemma note_is_report_document (k : string) (v : pyval) :
  k <> "annualReports" -> report_document (PDict {[ k := v ]}).
Proof.
  intros Hk. eexists. split; [reflexivity|]. intros r Hr.
  apply lookup_singleton_Some in Hr as [Heq _]. congruence.
Qed.

Lemma annual_is_report_document (field value : string) :
  report_document (Example.annual {[ field := PStr value ]}).
Proof.
  eexists. split; [reflexivity|]. intros r Hr.
  apply lookup_singleton_Some in Hr as [_ <-].
  eexists. split; [reflexivity|]. constructor; [|constructor].
  eexists. split; [reflexivity|]. intros k v Hv.
  apply lookup_singleton_Some in Hv as [_ <-]. eauto.
Qed.

Lemma shaped_documents_parse_or_report_witness :
  let note := PDict {[ "Note" := PStr "call frequency exceeded" ]} in
  let docs := {| income_statement := Example.income (PStr "1000");
                 cash_flow_statement := note;
                 balance_sheet := note;
                 company_overview := Example.overview (PStr "100") |} in
  let net := Example.provider (Example.ok (income_statement docs))
               (Example.ok note) (Example.ok note)
               (Example.ok (company_overview docs)) None in
  provider_shaped docs /\
  @calculate_dcf Reference.runtime net Example.symbol Example.api_key =
  (Ok None,
   trace (fetch_statements net Example.symbol Example.api_key)
   ++ [Print (ErrorParsing KeyError)]).
Proof.
  intros note docs net.
  assert (Hshape : provider_shaped docs).
  { split; [apply annual_is_report_document|].
    split; [apply note_is_report_document; discriminate|].
    split; [apply note_is_report_document; discriminate|].
    eexists. split; [reflexivity|]. intros k v Hv.
    apply lookup_singleton_Some in Hv as [_ <-]. eauto. }
  split; [exact Hshape|].
  assert (Hfetch : outcome (fetch_statements net Example.symbol
                              Example.api_key) = Ok docs)
    by (vm_compute; reflexivity).
  assert (Hall : all_retrieved docs = true) by (vm_compute; reflexivity).
  destruct (@shaped_documents_parse_or_report Reference.runtime net
              Example.symbol Example.api_key docs Hfetch Hall Hshape)
    as [[s Hs]|(e & He & _ & Hrun)].
  - vm_compute in Hs. discriminate Hs.
  - vm_compute in He. injection He as <-. exact Hrun.
Defined.

(** *** Line 55 *)

(** X6: what line 55 lets through. After a successful parse, if
    [float(fcf_data)] raises, or it returns and [float(revenue_data)]
    raises, [calculate_dcf] ends with that exception; if both return and
    the revenue is zero it ends with [ZeroDivisionError]. In each case
    nothing is printed after the fetches. *)
Theorem margin_division_failures `{Runtime} (net : network)
    (symbol api_key : string) (docs : statements) (s : snapshot) :
  outcome (fetch_statements net symbol api_key) = Ok docs ->
  all_retrieved docs = true ->
  parse_reports docs = Ok s ->
  let stopped e :=
    calculate_dcf net symbol api_key =
    (Raise e, trace (fetch_statements net symbol api_key)) in
  (forall e, py_float (fcf_data s) = Raise e -> stopped e) /\
  (forall fcf e, py_float (fcf_data s) = Ok fcf ->
     py_float (revenue_data s) = Raise e -> stopped e) /\
  (forall fcf revenue, py_float (fcf_data s) = Ok fcf ->
     py_float (revenue_data s) = Ok revenue ->
     (revenue =? 0)%float = true -> stopped ZeroDivisionError).
Proof.
  intros Hfetch Hall Hparse stopped. unfold stopped.
  rewrite (calculate_dcf_retrieved _ _ _ _ _
             (fetch_statements_split _ _ _ _ Hfetch) Hall).
  rewrite (value_statements_parsed _ _ Hparse).
  unfold intrinsic_value_per_share, dcf_locals.
  split; [|split].
  - intros e ->. cbn. now rewrite app_nil_r.
  - intros fcf e -> ->. cbn. now rewrite app_nil_r.
  - intros fcf revenue -> -> Hzero. cbn [rbind].
    unfold float_truediv at 1. rewrite Hzero. cbn. now rewrite app_nil_r.
Qed.

Lemma margin_division_failures_witness :
  let net := Example.company "100" "0" "50" "30" "100" None in
  let docs := Example.documents "100" "0" "50" "30" "100" in
  let s := {| fcf_data := PStr "100"; revenue_data := PStr "0";
              shares_outstanding := 100; total_debt := 30%float;
              cash_and_equivalents := 50%float |} in
  (outcome (fetch_statements net Example.symbol Example.api_key) = Ok docs /\
   all_retrieved docs = true /\
   @parse_reports Reference.runtime docs = Ok s) /\
  @calculate_dcf Reference.runtime net Example.symbol Example.api_key =
  (Raise ZeroDivisionError,
   trace (fetch_statements net Example.symbol Example.api_key)).
Proof.
  intros net docs s.
  assert (Hfetch : outcome (fetch_statements net Example.symbol
                              Example.api_key) = Ok docs)
    by (vm_compute; reflexivity).
  assert (Hall : all_retrieved docs = true) by (vm_compute; reflexivity).
  assert (Hparse : @parse_reports Reference.runtime docs = Ok s)
    by (vm_compute; reflexivity).
  split; [auto|].
  destruct (@margin_division_failures Reference.runtime net Example.symbol
              Example.api_key docs s Hfetch Hall Hparse) as (_ & _ & Hzero).
  apply (Hzero 100%float 0%float); vm_compute; reflexivity.
Defined.

(** *** The division by the share count *)

(** X7: once the values up to the equity value are computed, the division
    of line 84 raises [ZeroDivisionError] exactly when the share count is
    zero; any other count gives the quotient, or [OverflowError] when it
    is too large to be a float. *)
Theorem share_division `{Runtime} (s : snapshot) (l : locals) :
  dcf_locals s = Ok l ->
  (intrinsic_value_per_share s = Raise ZeroDivisionError <->
   shares_outstanding s = 0) /\
  (shares_outstanding s <> 0 ->
   intrinsic_value_per_share s = Raise OverflowError \/
   exists shares,
     int_to_float (shares_outstanding s) = Ok shares /\
     intrinsic_value_per_share s = Ok (equity_value l / shares)%float).
Proof.
  intros Hl. unfold intrinsic_value_per_share. rewrite Hl. cbn [rbind].
  unfold float_truediv_int.
  assert (Hother : shares_outstanding s <> 0 ->
    rbind (int_to_float (shares_outstanding s))
      (float_truediv (equity_value l)) = Raise OverflowError \/
    exists shares,
      int_to_float (shares_outstanding s) = Ok shares /\
      rbind (int_to_float (shares_outstanding s))
        (float_truediv (equity_value l)) =
      Ok (equity_value l / shares)%float).
  { intros Hn.
    destruct (int_to_float (shares_outstanding s)) as [x|e] eqn:Hx.
    - right. exists x. split; [reflexivity|]. cbn [rbind].
      apply float_truediv_nonzero.
      exact (int_to_float_nonzero _ _ Hn Hx).
    - left. unfold int_to_float in Hx.
      destruct (is_infinity (nearest_float (shares_outstanding s)));
        [injection Hx as <-; reflexivity|discriminate Hx]. }
  split; [split|exact Hother].
  - intros Hraise.
    destruct (Z.eq_dec (shares_outstanding s) 0) as [Hz|Hn]; [exact Hz|].
    destruct (Hother Hn) as [Hov|(x & _ & Hok)]; congruence.
  - intros ->. reflexivity.
Qed.

Lemma share_division_witness :
  exists l shares,
    @dcf_locals Reference.runtime Example.worked_snapshot = Ok l /\
    int_to_float 100 = Ok shares /\
    @intrinsic_value_per_share Reference.runtime Example.worked_snapshot =
    Ok (equity_value l / shares)%float.
Proof.
  destruct (@dcf_locals Reference.runtime Example.worked_snapshot)
    as [l|e] eqn:Hl; [|vm_compute in Hl; discriminate Hl].
  destruct (@share_division Reference.runtime Example.worked_snapshot l Hl)
    as [_ Hother].
  destruct Hother as [Hov|(shares & Hshares & Hvalue)].
  - cbn. discriminate.
  - vm_compute in Hov. discriminate Hov.
  - exists l, shares. split; [reflexivity|]. split; assumption.
Defined.

(** *** Which exceptions leave [calculate_dcf] *)

Lemma seq_getitem_raises {A} (l : list A) (i : Z) (e : exn) :
  seq_getitem l i = Raise e -> e = IndexError.
Proof.
  unfold seq_getitem.
  destruct (_ || _); [congruence|].
  destruct (nth_error _ _); [discriminate|congruence].
Qed.

Lemma py_getitem_int_raises (c : pyval) (i : Z) (e : exn) :
  py_getitem_int c i = Raise e ->
  e = KeyError \/ e = IndexError \/ e = TypeError.
Proof.
  destruct c; cbn; try (intros [= <-]; tauto).
  - destruct (seq_getitem (list_ascii_of_string s) i) as [ch|e1] eqn:Hs;
      cbn; [discriminate|].
    intros [= <-]. apply seq_getitem_raises in Hs. tauto.
  - intros Hl. apply seq_getitem_raises in Hl. tauto.
Qed.

Lemma latest_annual_raises (doc : pyval) (field : string) (e : exn) :
  latest_annual doc field = Raise e ->
  e = KeyError \/ e = IndexError \/ e = TypeError.
Proof.
  unfold latest_annual.
  destruct (py_getitem_str doc "annualReports") as [r|e1] eqn:Hr;
    cbn [rbind].
  2:{ intros [= <-].
      destruct (py_getitem_str_raises _ _ _ Hr); tauto. }
  destruct (py_getitem_int r 0) as [x|e2] eqn:Hx; cbn [rbind].
  2:{ intros [= <-]. exact (py_getitem_int_raises _ _ _ Hx). }
  intros Hf. destruct (py_getitem_str_raises _ _ _ Hf); tauto.
Qed.

Section Escapes.
Context `{Runtime}.

Lemma py_float_raises (v : pyval) (e : exn) :
  py_float v = Raise e -> unhandled e = true.
Proof.
  destruct v; cbn; try (intros [= <-]; reflexivity).
  - unfold int_to_float. destruct (is_infinity _); [|discriminate].
    now intros [= <-].
  - destruct (str_to_float s); [discriminate|]. now intros [= <-].
Qed.

Lemma py_int_raises (v : pyval) (e : exn) :
  py_int v = Raise e -> unhandled e = true.
Proof.
  destruct v; cbn; try (intros [= <-]; reflexivity); try discriminate.
  - unfold float_trunc. destruct (Prim2SF x); try discriminate;
      now intros [= <-].
  - destruct (str_to_int s); [discriminate|]. now intros [= <-].
Qed.

Lemma float_truediv_raises (a b : float) (e : exn) :
  float_truediv a b = Raise e -> e = ZeroDivisionError.
Proof.
  unfold float_truediv. destruct (b =? 0)%float; [congruence|discriminate].
Qed.

Lemma math_pow_raises (x : float) (n : Z) (e : exn) :
  math_pow x n = Raise e -> unhandled e = true.
Proof.
  unfold math_pow, int_to_float.
  destruct (is_infinity (nearest_float n)); cbn [rbind];
    [now intros [= <-]|].
  destruct (_ && _); [|discriminate].
  destruct (is_nan _); [now intros [= <-]|].
  destruct (is_infinity _); [|discriminate].
  destruct (x =? 0)%float; now intros [= <-].
Qed.

Lemma discount_fcf_raises (years : list (Z * float)) (acc : float)
    (e : exn) :
  discount_fcf years acc = Raise e -> unhandled e = true.
Proof.
  revert acc. induction years as [|[i x] years IH]; intros acc;
    cbn [discount_fcf]; [discriminate|].
  destruct (math_pow _ i) as [factor|e1] eqn:Hpow; cbn [rbind].
  2:{ intros [= <-]. exact (math_pow_raises _ _ _ Hpow). }
  destruct (float_truediv x factor) as [term|e2] eqn:Hdiv; cbn [rbind].
  2:{ intros [= <-]. now rewrite (float_truediv_raises _ _ _ Hdiv). }
  apply IH.
Qed.

Lemma intrinsic_value_raises (s : snapshot) (e : exn) :
  intrinsic_value_per_share s = Raise e -> unhandled e = true.
Proof.
  unfold intrinsic_value_per_share, dcf_locals.
  destruct (py_float (fcf_data s)) as [fcf|e1] eqn:Hfcf; cbn [rbind].
  2:{ intros [= <-]. exact (py_float_raises _ _ Hfcf). }
  destruct (py_float (revenue_data s)) as [revenue|e1] eqn:Hrev;
    cbn [rbind].
  2:{ intros [= <-]. exact (py_float_raises _ _ Hrev). }
  destruct (float_truediv fcf revenue) as [margin|e1] eqn:Hmargin;
    cbn [rbind].
  2:{ intros [= <-]. now rewrite (float_truediv_raises _ _ _ Hmargin). }
  rewrite (project_fcf_years _ _ Hfcf). cbn [rbind].
  destruct (discount_fcf _ _) as [pv|e1] eqn:Hpv; cbn [rbind].
  2:{ intros [= <-]. exact (discount_fcf_raises _ _ _ Hpv). }
  change [1; 2; 3; 4; 5]%nat with ([1; 2; 3; 4]%nat ++ [5%nat]).
  rewrite map_app. cbn [map]. rewrite seq_getitem_last. cbn [rbind].
  rewrite (float_truediv_nonzero _ (discount_rate - terminal_growth_rate))
    by reflexivity.
  cbn [rbind].
  destruct (math_pow _ forecast_years) as [factor|e1] eqn:Hpow; cbn [rbind].
  2:{ intros [= <-]. exact (math_pow_raises _ _ _ Hpow). }
  match goal with
  | |- context [float_truediv ?tv factor] =>
      destruct (float_truediv tv factor) as [pvtv|e1] eqn:Hpvtv
  end; cbn [rbind].
  2:{ intros [= <-]. now rewrite (float_truediv_raises _ _ _ Hpvtv). }
  cbn [equity_value]. unfold float_truediv_int, int_to_float.
  destruct (is_infinity _); cbn [rbind]; [now intros [= <-]|].
  intros Hdiv. now rewrite (float_truediv_raises _ _ _ Hdiv).
Qed.

Lemma parse_reports_raises (docs : statements) (e : exn) :
  parse_reports docs = Raise e ->
  parse_handled e = true \/ unhandled e = true.
Proof.
  assert (Hlatest : forall doc field e',
            latest_annual doc field = Raise e' ->
            parse_handled e' = true \/ unhandled e' = true).
  { intros doc field e' He'.
    destruct (latest_annual_raises _ _ _ He') as [->|[->| ->]]; cbn; tauto. }
  unfold parse_reports.
  destruct (latest_annual _ "freeCashFlow") as [fd|e1] eqn:H1; cbn [rbind].
  2:{ intros [= <-]. eauto. }
  destruct (latest_annual _ "totalRevenue") as [rd|e1] eqn:H2; cbn [rbind].
  2:{ intros [= <-]. eauto. }
  destruct (py_getitem_str _ "SharesOutstanding") as [ss|e1] eqn:H3;
    cbn [rbind].
  2:{ intros [= <-].
      destruct (py_getitem_str_raises _ _ _ H3) as [-> | ->]; cbn; tauto. }
  destruct (py_int ss) as [sh|e1] eqn:H4; cbn [rbind].
  2:{ intros [= <-]. right. exact (py_int_raises _ _ H4). }
  destruct (latest_annual _ "totalLiabilities") as [ls|e1] eqn:H5;
    cbn [rbind].
  2:{ intros [= <-]. eauto. }
  destruct (py_float ls) as [td|e1] eqn:H6; cbn [rbind].
  2:{ intros [= <-]. right. exact (py_float_raises _ _ H6). }
  destruct (latest_annual _ "cashAndCashEquivalents") as [cs|e1] eqn:H7;
    cbn [rbind].
  2:{ intros [= <-]. eauto. }
  destruct (py_float cs) as [ce|e1] eqn:H8; cbn [rbind]; [discriminate|].
  intros [= <-]. right. exact (py_float_raises _ _ H8).
Qed.

Lemma value_statements_raises (docs : statements) (e : exn) :
  outcome (value_statements docs) = Raise e -> unhandled e = true.
Proof.
  unfold value_statements.
  destruct (parse_reports docs) as [s|e1] eqn:Hparse; cbn.
  - destruct (intrinsic_value_per_share s) as [v|e2] eqn:Hv; cbn;
      [discriminate|].
    intros [= <-]. exact (intrinsic_value_raises _ _ Hv).
  - destruct (parse_handled e1) eqn:Hcatch; cbn; [discriminate|].
    intros [= <-].
    destruct (parse_reports_raises _ _ Hparse); congruence.
Qed.

Lemma calculate_dcf_raises (net : network) (symbol api_key : string)
    (e : exn) :
  outcome (calculate_dcf net symbol api_key) = Raise e ->
  unhandled e = true.
Proof.
  assert (Hget : forall B f (k : pyval -> M B),
    (forall d, outcome (k d) = Raise e -> unhandled e = true) ->
    outcome (bind (get_alpha_vantage_data net symbol f api_key) k)
    = Raise e -> unhandled e = true).
  { intros B f k Hk.
    destruct (outcome_cases (get_alpha_vantage_data net symbol f api_key))
      as [[d Hd]|[e1 He1]].
    - rewrite (outcome_bind_ok _ _ _ Hd). apply Hk.
    - rewrite (outcome_bind_raise _ _ _ He1). intros [= <-].
      now destruct (fetch_raises _ _ _ _ _ He1) as [-> _]. }
  unfold calculate_dcf.
  destruct (outcome_cases (fetch_statements net symbol api_key))
    as [[docs Hdocs]|[e1 He1]].
  - rewrite (outcome_bind_ok _ _ _ Hdocs).
    destruct (negb (all_retrieved docs)); [cbn; discriminate|].
    apply value_statements_raises.
  - rewrite (outcome_bind_raise _ _ _ He1). intros [= <-].
    revert He1. unfold fetch_statements.
    apply Hget. intros d1. apply Hget. intros d2.
    apply Hget. intros d3. apply Hget. intros d4. cbn. discriminate.
Qed.
End Escapes.

(** X8: the exceptions that can leave [calculate_dcf] are [TypeError],
    [ValueError], [ZeroDivisionError] and [OverflowError]; a [KeyError],
    an [IndexError] or a request failure never does. *)
Theorem calculate_dcf_escapes `{Runtime} (net : network)
    (symbol api_key : string) (e : exn) :
  outcome (calculate_dcf net symbol api_key) = Raise e ->
  e = TypeError \/ e = ValueError \/ e = ZeroDivisionError \/
  e = OverflowError.
Proof.
  intros Hraise. apply calculate_dcf_raises in Hraise.
  destruct e; cbn in Hraise; try discriminate; tauto.
Qed.

Lemma calculate_dcf_escapes_witness :
  let net := Example.company "None" "1000" "50" "30" "100" None in
  outcome (@calculate_dcf Reference.runtime net Example.symbol
             Example.api_key) = Raise ValueError /\
  (ValueError = TypeError \/ ValueError = ValueError \/
   ValueError = ZeroDivisionError \/ ValueError = OverflowError).
Proof.
  intros net.
  assert (Hraise : outcome (@calculate_dcf Reference.runtime net
                              Example.symbol Example.api_key)
                   = Raise ValueError) by (vm_compute; reflexivity).
  split; [exact Hraise|].
  exact (@calculate_dcf_escapes Reference.runtime net Example.symbol
           Example.api_key ValueError Hraise).
Defined.

(** *** The quote *)

Section Quote.
Context `{Runtime}.

(** [main] once the valuation has returned a value other than zero. *)
Lemma main_reports (getenv : string -> option string) (net : network)
    (symbol api_key : string) (v : float) :
  configured getenv symbol api_key ->
  outcome (calculate_dcf net symbol api_key) = Ok (Some v) ->
  (v =? 0)%float = false ->
  main getenv net =
  (outcome (report net symbol api_key v),
   Print (Calculating symbol) ::
   trace (calculate_dcf net symbol api_key) ++
   trace (report net symbol api_key v)).
Proof.
  intros Hconf Hcalc Hnz.
  rewrite (main_after_valuation getenv net symbol api_key (Some v) Hconf
             Hcalc).
  cbn [truthy]. now rewrite Hnz.
Qed.
End Quote.

(** X9: when the valuation returned a value other than zero and the quote
    is not there (the fetch returned null, or an empty document, or a
    document without a ["Global Quote"] entry, such as the provider's
    rate-limit note), [main] prints that the price could not be retrieved
    and ends normally, without any figure or verdict. *)
Theorem price_not_retrieved `{Runtime} (getenv : string -> option string)
    (net : network) (symbol api_key : string) (v : float) (doc : pyval)
    (t : list event) :
  configured getenv symbol api_key ->
  outcome (calculate_dcf net symbol api_key) = Ok (Some v) ->
  (v =? 0)%float = false ->
  get_alpha_vantage_data net symbol "GLOBAL_QUOTE" api_key = (Ok doc, t) ->
  truthy doc = false \/ py_contains "Global Quote" doc = Ok false ->
  main getenv net =
  (Ok tt,
   Print (Calculating symbol) ::
   trace (calculate_dcf net symbol api_key) ++
   t ++ [Print CouldNotRetrievePrice]).
Proof.
  intros Hconf Hcalc Hnz Hquote Hmissing.
  rewrite (main_reports getenv net symbol api_key v Hconf Hcalc Hnz).
  unfold report. rewrite Hquote, bind_ok.
  destruct (truthy doc) eqn:Htruthy.
  - destruct Hmissing as [|Hin]; [discriminate|]. rewrite Hin. reflexivity.
  - reflexivity.
Qed.

Lemma price_not_retrieved_witness :
  let net := Example.company "100" "1000" "50" "30" "100"
               (Example.ok (PDict {[ "Note" := PStr "call frequency" ]})) in
  configured Example.getenv Example.symbol Example.api_key /\
  outcome (@calculate_dcf Reference.runtime net Example.symbol
             Example.api_key) = Ok (Some 17.756249660647292%float) /\
  @main Reference.runtime Example.getenv net =
  (Ok tt,
   Print (Calculating Example.symbol) ::
   trace (@calculate_dcf Reference.runtime net Example.symbol
            Example.api_key) ++
   [HttpGet (quote_url Example.symbol Example.api_key)] ++
   [Print CouldNotRetrievePrice]).
Proof.
  intros net.
  assert (Hvalue : outcome (@calculate_dcf Reference.runtime net
                              Example.symbol Example.api_key)
                   = Ok (Some 17.756249660647292%float))
    by (vm_compute; reflexivity).
  split; [exact configured_example|]. split; [exact Hvalue|].
  assert (Hquote :
    get_alpha_vantage_data net Example.symbol "GLOBAL_QUOTE" Example.api_key
    = (Ok (PDict {[ "Note" := PStr "call frequency" ]}),
       [HttpGet (quote_url Example.symbol Example.api_key)]))
    by (vm_compute; reflexivity).
  assert (Hin : py_contains "Global Quote"
                  (PDict {[ "Note" := PStr "call frequency" ]}) = Ok false)
    by (vm_compute; reflexivity).
  exact (@price_not_retrieved Reference.runtime Example.getenv net
           Example.symbol Example.api_key _ _ _ configured_example Hvalue
           eq_refl Hquote (or_intror Hin)).
Defined.

(** X10: nothing in [main] guards the reading of the price. When the
    quote document has a ["Global Quote"] entry but the price cannot be
    read from it (the entry has no ["05. price"], as in the empty entry
    the provider sends for an unknown symbol, or is not an object, or the
    price does not convert to a float), [main] ends with the exception
    raised, after the quote request and before any figure is printed. *)
Theorem unreadable_price_raises `{Runtime}
    (getenv : string -> option string) (net : network)
    (symbol api_key : string) (v : float) (d : gmap string pyval)
    (q : pyval) (t : list event) (e : exn) :
  configured getenv symbol api_key ->
  outcome (calculate_dcf net symbol api_key) = Ok (Some v) ->
  (v =? 0)%float = false ->
  get_alpha_vantage_data net symbol "GLOBAL_QUOTE" api_key
  = (Ok (PDict d), t) ->
  d !! "Global Quote" = Some q ->
  py_getitem_str q "05. price" = Raise e \/
  (exists price, py_getitem_str q "05. price" = Ok price /\
                 py_float price = Raise e) ->
  main getenv net =
  (Raise e,
   Print (Calculating symbol) ::
   trace (calculate_dcf net symbol api_key) ++ t).
Proof.
  intros Hconf Hcalc Hnz Hquote Hentry Hprice.
  rewrite (main_reports getenv net symbol api_key v Hconf Hcalc Hnz).
  unfold report. rewrite Hquote, bind_ok.
  assert (Htruthy : truthy (PDict d) = true).
  { cbn. rewrite bool_decide_false; [reflexivity|].
    intros ->. now rewrite lookup_empty in Hentry. }
  rewrite Htruthy. cbn [py_contains py_getitem_str].
  rewrite Hentry. cbn.
  destruct Hprice as [->|(price & -> & Hfloat)]; cbn.
  - now rewrite app_nil_r.
  - rewrite Hfloat. cbn. now rewrite app_nil_r.
Qed.

Lemma unreadable_price_raises_witness :
  let answer := PDict {[ "Global Quote" := PDict ∅ ]} in
  let net := Example.company "100" "1000" "50" "30" "100"
               (Example.ok answer) in
  configured Example.getenv Example.symbol Example.api_key /\
  outcome (@calculate_dcf Reference.runtime net Example.symbol
             Example.api_key) = Ok (Some 17.756249660647292%float) /\
  @main Reference.runtime Example.getenv net =
  (Raise KeyError,
   Print (Calculating Example.symbol) ::
   trace (@calculate_dcf Reference.runtime net Example.symbol
            Example.api_key) ++
   [HttpGet (quote_url Example.symbol Example.api_key)]).
Proof.
  intros answer net.
  assert (Hvalue : outcome (@calculate_dcf Reference.runtime net
                              Example.symbol Example.api_key)
                   = Ok (Some 17.756249660647292%float))
    by (vm_compute; reflexivity).
  split; [exact configured_example|]. split; [exact Hvalue|].
  assert (Hquote :
    get_alpha_vantage_data net Example.symbol "GLOBAL_QUOTE" Example.api_key
    = (Ok answer, [HttpGet (quote_url Example.symbol Example.api_key)]))
    by (vm_compute; reflexivity).
  assert (Hentry : ({[ "Global Quote" := PDict ∅ ]} : gmap string pyval)
                   !! "Global Quote" = Some (PDict ∅))
    by (vm_compute; reflexivity).
  assert (Hprice : py_getitem_str (PDict ∅) "05. price" = Raise KeyError)
    by (vm_compute; reflexivity).
  exact (@unreadable_price_raises Reference.runtime Example.getenv net
           Example.symbol Example.api_key _ _ _ _ KeyError
           configured_example Hvalue eq_refl Hquote Hentry
           (or_introl Hprice)).
Defined.

(** *** The environment *)

Lemma requests_some (t : list event) (u : string) :
  In (HttpGet u) t -> requests t <> [].
Proof.
  induction t as [|[u'|l] t IH]; cbn; [tauto|discriminate|].
  intros [|Hin]; [discriminate|auto].
Qed.

Lemma unset_cases (v : option string) :
  unset v \/ exists s, v = Some s /\ s <> "".
Proof.
  destruct v as [[|c s]|]; [left; now right| |left; now left].
  right. eexists. split; [reflexivity|discriminate].
Qed.

(** X11: [main] checks the API key first and the symbol second, prints
    one message for the first that is unset or empty and stops; it sends a
    request exactly when both are set and not empty. *)
Theorem main_requests_iff_configured `{Runtime}
    (getenv : string -> option string) (net : network) :
  (unset (getenv "ALPHA_VANTAGE_API_KEY") ->
   main getenv net = (Ok tt, [Print ApiKeyNotFound])) /\
  (~ unset (getenv "ALPHA_VANTAGE_API_KEY") ->
   unset (getenv "STOCK_SYMBOL") ->
   main getenv net = (Ok tt, [Print SymbolNotFound])) /\
  (requests (trace (main getenv net)) <> [] <->
   ~ unset (getenv "ALPHA_VANTAGE_API_KEY") /\
   ~ unset (getenv "STOCK_SYMBOL")).
Proof.
  assert (Hkey : unset (getenv "ALPHA_VANTAGE_API_KEY") ->
                 main getenv net = (Ok tt, [Print ApiKeyNotFound])).
  { unfold main. now intros [-> | ->]. }
  assert (Hsym : ~ unset (getenv "ALPHA_VANTAGE_API_KEY") ->
                 unset (getenv "STOCK_SYMBOL") ->
                 main getenv net = (Ok tt, [Print SymbolNotFound])).
  { unfold main, unset. intros Hk Hs.
    destruct (getenv "ALPHA_VANTAGE_API_KEY") as [[|c k]|]; try tauto.
    now destruct Hs as [-> | ->]. }
  split; [exact Hkey|]. split; [exact Hsym|].
  destruct (unset_cases (getenv "ALPHA_VANTAGE_API_KEY"))
    as [Hk|(key & Hk & Hkne)].
  { rewrite (Hkey Hk). cbn. tauto. }
  assert (Hkset : ~ unset (getenv "ALPHA_VANTAGE_API_KEY")).
  { rewrite Hk. intros [|[= ->]]; [discriminate|congruence]. }
  destruct (unset_cases (getenv "STOCK_SYMBOL")) as [Hs|(sym & Hs & Hsne)].
  { rewrite (Hsym Hkset Hs). cbn. tauto. }
  assert (Hsset : ~ unset (getenv "STOCK_SYMBOL")).
  { rewrite Hs. intros [|[= ->]]; [discriminate|congruence]. }
  split; [tauto|]. intros _.
  assert (Hconf : configured getenv sym key) by (repeat split; assumption).
  apply (requests_some _ (query_url sym "INCOME_STATEMENT" key)).
  rewrite (main_configured _ _ _ _ Hconf).
  unfold print, emit. rewrite bind_ok. cbn [snd app fst]. right.
  apply (trace_bind_incl (calculate_dcf net sym key)).
  unfold calculate_dcf. apply trace_bind_incl.
  unfold fetch_statements. apply trace_bind_incl.
  destruct (fetch_trace net sym "INCOME_STATEMENT" key) as (t & -> & _).
  now left.
Qed.

Lemma main_requests_iff_configured_witness :
  unset (Some "") /\
  @main Reference.runtime
    (fun name => if String.eqb name "STOCK_SYMBOL" then Some "IBM"
                 else Some "")
    Example.worked = (Ok tt, [Print ApiKeyNotFound]).
Proof.
  split; [now right|].
  apply (@main_requests_iff_configured Reference.runtime
           (fun name => if String.eqb name "STOCK_SYMBOL" then Some "IBM"
                        else Some "") Example.worked).
  now right.
Defined.

(** *** The verdict, price and value exchanged *)

(** X12: exchanging the intrinsic value and the price exchanges
    "undervalued" and "overvalued" and keeps "fairly valued". *)
Theorem verdict_swap (v p : float) :
  compare_to_price p v =
  match compare_to_price v p with
  | Undervalued => Overvalued
  | Overvalued => Undervalued
  | FairlyValued => FairlyValued
  end.
Proof.
  unfold compare_to_price.
  destruct (float_order_cases v p)
    as [(-> & -> & _)|[(-> & -> & _)|[(-> & -> & _)|(-> & -> & _)]]];
    reflexivity.
Qed.

(** *** The projection loop at any horizon *)

Lemma py_range_from_one (n : nat) :
  py_range 1 (Z.of_nat n + 1) = map Z.of_nat (seq 1 n).
Proof.
  unfold py_range.
  replace (Z.to_nat (Z.of_nat n + 1 - 1)) with n by lia.
  rewrite <- seq_shift, map_map. apply map_ext. intros k. lia.
Qed.

(** X13: for any number of forecast years the loop of lines 61-67 returns
    one value per year, each the one before times [1 + growth] and the
    first the latest cash flow times [1 + growth]; reading
    [projected_fcf[-1]] never fails in it. *)
Theorem projection_loop `{Runtime} (d : pyval) (fcf : float) (n : nat) :
  py_float d = Ok fcf ->
  project_fcf d (py_range 1 (Z.of_nat n + 1)) [] =
  Ok (map (projected fcf) (seq 1 n)).
Proof.
  intros Hfcf. rewrite py_range_from_one.
  exact (project_fcf_from d fcf n 0 Hfcf).
Qed.

Lemma projection_loop_witness :
  @py_float Reference.runtime (PStr "100") = Ok 100%float /\
  @project_fcf Reference.runtime (PStr "100") (py_range 1 (7 + 1)) [] =
  Ok (map (projected 100) (seq 1 7)).
Proof.
  assert (Hfcf : @py_float Reference.runtime (PStr "100") = Ok 100%float)
    by (vm_compute; reflexivity).
  split; [exact Hfcf|].
  exact (@projection_loop Reference.runtime (PStr "100") 100%float 7 Hfcf).
Defined.
